(** * Step execution control of the Magentic-UI orchestrator

    A shallow embedding of the step-execution control described by the
    repository's orchestrator sources: the step validators, the agent
    allocator and the execution controller of the orchestrator refactoring
    (the [_execution_controller.py], [_step_validators.py] and
    [_orchestrator.py] listings), the configuration-driven boundary
    controller with the shipped boundary profile, the orchestrator's
    step-advancement logic, and, from the analysis notes, the relevance test
    for responses and the agent state bus.

    Python [str] values are modelled as [string], i.e. as the UTF-8 byte
    sequence of the text.  For well-formed UTF-8 the byte-level substring
    test coincides with Python's code-point-level [in]. *)

From Stdlib Require Import Lia Bool Ascii String ZArith DecimalString DecimalPos.
From stdpp Require Import base option list strings gmap.

Local Open Scope string_scope.
Local Open Scope list_scope.
Local Open Scope nat_scope.

(** ** Python string primitives *)

Module PyStr.

(** [needle in hay] on Python strings.  The empty needle occurs in every
    string, as in Python. *)
Fixpoint contains (needle hay : string) : bool :=
  String.prefix needle hay
  || match hay with
     | EmptyString => false
     | String _ rest => contains needle rest
     end.

(** [any(x in text for x in words)]. *)
Definition any_in (words : list string) (text : string) : bool :=
  existsb (fun w => contains w text) words.

(** [c.lower()] on one byte: the ASCII capitals are mapped to their small
    letters.  The bytes of multi-byte UTF-8 sequences are all above 127 and
    are left alone: CJK text and emoji are caseless.  Cased letters outside
    ASCII, which Python lower-cases as well, occur in none of the tables
    below and are outside this model. *)
Definition lower_ascii (c : ascii) : ascii :=
  let n := Ascii.nat_of_ascii c in
  if (65 <=? n)%nat && (n <=? 90)%nat then Ascii.ascii_of_nat (n + 32) else c.

(** [s.lower()]. *)
Fixpoint lower (s : string) : string :=
  match s with
  | EmptyString => EmptyString
  | String c rest => String (lower_ascii c) (lower rest)
  end.

End PyStr.

(** ** Step descriptors and execution results *)

(** The [step_info] dictionary handed to the controller, the validators and
    the allocator: keys ['agent_name'], ['title'] and ['details']. *)
Record StepInfo := mkStepInfo {
  agent_name : string;
  title : string;
  details : string;
}.

(** Data attached to a successful result.  The extraction helpers
    ([_extract_research_data], [_extract_image_info]) are not part of the
    listings; their value is kept symbolic, as "what the helper extracts
    from this response". *)
Inductive Extracted :=
  | ResearchDataOf (agent_response : string)
  | ImageInfoOf (agent_response : string).

(** [ExecutionResult(success=..., reason=..., action=..., extracted_data=...,
    image_info=...)]; keyword arguments that a call site omits are [None]. *)
Record ExecutionResult := mkExecutionResult {
  success : bool;
  reason : string;
  action : option string;
  extracted_data : option Extracted;
  image_info : option Extracted;
}.

(** ** Step validators ([_step_validators.py]) *)

Module WebSearchValidator.

Definition completion_signals : list string :=
  [ "✅ 任务已完成"; "✅ TASK COMPLETED";
    "⚠️ 任务因错误完成"; "⚠️ TASK COMPLETED WITH ERRORS";
    "🔄 任务通过替代方案完成"; "🔄 TASK COMPLETED VIA ALTERNATIVE" ].

Definition info_indicators : list string :=
  [ "产品"; "相机"; "规格"; "功能"; "特点" ].

Definition generic_responses : list string :=
  [ "我理解您需要"; "Let me help you"; "我可以帮助您" ].

Definition has_completion_signal (agent_response : string) : bool :=
  PyStr.any_in completion_signals agent_response.

Definition has_useful_info (agent_response : string) : bool :=
  PyStr.any_in info_indicators agent_response.

Definition is_generic (agent_response : string) : bool :=
  PyStr.any_in generic_responses agent_response.

Definition validate_completion (step_info : StepInfo) (agent_response : string)
  : ExecutionResult :=
  if has_completion_signal agent_response && has_useful_info agent_response then
    {| success := true;
       reason := "网络搜索任务已完成，获取到有效信息";
       action := None;
       extracted_data := Some (ResearchDataOf agent_response);
       image_info := None |}
  else if is_generic agent_response then
    {| success := false;
       reason := "检测到通用回复，任务未完成";
       action := Some "retry_with_enhanced_instruction";
       extracted_data := None;
       image_info := None |}
  else
    {| success := false;
       reason := "未检测到明确的完成信号";
       action := None;
       extracted_data := None;
       image_info := None |}.

End WebSearchValidator.

Module ImageGenerationValidator.

Definition completion_signals : list string :=
  [ "图像生成任务已完成"; "image generation complete";
    "图像已成功生成"; "successfully generated";
    "生成完成"; "generation completed" ].

Definition image_indicators : list string :=
  [ ".png"; ".jpg"; ".jpeg"; "image"; "图像"; "图片" ].

Definition has_completion_signal (agent_response : string) : bool :=
  PyStr.any_in completion_signals agent_response.

Definition has_image_reference (agent_response : string) : bool :=
  PyStr.any_in image_indicators agent_response.

Definition validate_completion (step_info : StepInfo) (agent_response : string)
  : ExecutionResult :=
  if has_completion_signal agent_response || has_image_reference agent_response then
    {| success := true;
       reason := "图像生成任务已完成";
       action := None;
       extracted_data := None;
       image_info := Some (ImageInfoOf agent_response) |}
  else
    {| success := false;
       reason := "图像生成未完成";
       action := None;
       extracted_data := None;
       image_info := None |}.

End ImageGenerationValidator.

(** ** Agent allocation ([SmartAgentAllocator], [_orchestrator.py]) *)

Module SmartAgentAllocator.

Record Capabilities := mkCapabilities {
  primary : list string;
  keywords : list string;
  output_types : list string;
}.

(** [self.agent_capabilities]; a Python dict iterates in insertion order,
    which [max] below depends on, so the table is kept as an ordered list. *)
Definition agent_capabilities : list (string * Capabilities) :=
  [ ("web_surfer",
     {| primary := ["网站访问"; "在线搜索"; "信息收集"];
        keywords := ["访问"; "搜索"; "浏览"; "网站"; "te720.com"];
        output_types := ["文本信息"; "产品数据"; "规格参数"] |});
    ("image_generator",
     {| primary := ["图像生成"; "视觉创作"; "AI绘图"];
        keywords := ["生成"; "创建"; "绘制"; "图像"; "图片"; "CG"; "设计"];
        output_types := ["图像文件"; "视觉内容"] |});
    ("coder_agent",
     {| primary := ["文档处理"; "格式转换"; "代码执行"];
        keywords := ["markdown"; "html"; "pdf"; "文档"; "转换"; "编程"];
        output_types := ["文档文件"; "格式化内容"; "代码输出"] |}) ].

(** The two scoring loops: [+2] per keyword and [+3] per primary task type
    found in the text. *)
Definition score_of (capabilities : Capabilities) (combined_text : string) : nat :=
  let score := 0%nat in
  let score :=
    fold_left (fun score keyword =>
                 if PyStr.contains keyword combined_text then (score + 2)%nat else score)
              (keywords capabilities) score in
  fold_left (fun score task_type =>
               if PyStr.contains task_type combined_text then (score + 3)%nat else score)
            (primary capabilities) score.

Definition scores_of (combined_text : string) : list (string * nat) :=
  map (fun '(agent, capabilities) => (agent, score_of capabilities combined_text))
      agent_capabilities.

(** [max(items, key=lambda x: x[1])]: the first item of maximal score;
    [None] stands for the [ValueError] on an empty sequence. *)
Definition max_by_score (items : list (string * nat)) : option (string * nat) :=
  match items with
  | [] => None
  | first :: rest =>
      Some (fold_left (fun best item => if (snd best <? snd item)%nat then item else best)
                      rest first)
  end.

Definition image_rule_words : list string := ["生成"; "创建"; "绘制"; "图像"; "CG"].
Definition web_rule_words : list string := ["访问"; "搜索"; "te720"; "网站"].
Definition coder_rule_words : list string := ["markdown"; "html"; "pdf"; "转换"].

(** The first special rule: the outer [any(...)] test and the nested
    ['图像' in combined_text or 'image' in combined_text]. *)
Definition image_rule (combined_text : string) : bool :=
  PyStr.any_in image_rule_words combined_text
  && (PyStr.contains "图像" combined_text || PyStr.contains "image" combined_text).

Definition combined_text_of (step_info : StepInfo) : string :=
  (PyStr.lower (title step_info) ++ " " ++ PyStr.lower (details step_info))%string.

Definition allocate_agent (step_info : StepInfo) : option string :=
  let combined_text := combined_text_of step_info in
  let scores := scores_of combined_text in
  if image_rule combined_text then Some "image_generator"
  else if PyStr.any_in web_rule_words combined_text then Some "web_surfer"
  else if PyStr.any_in coder_rule_words combined_text then Some "coder_agent"
  else
    best_agent ← max_by_score scores;
    Some (if (0 <? snd best_agent)%nat then fst best_agent else "coder_agent").

End SmartAgentAllocator.

(** ** Execution controller ([_execution_controller.py]) *)

Module ExecutionController.

(** One entry of [self.execution_history]. *)
Record HistoryEntry := mkHistoryEntry {
  entry_step_id : string;
  entry_timestamp : nat;
  entry_agent : string;
  entry_response : string;
}.

(** The controller object: [self.execution_history] and
    [self.step_attempts].  [self.step_validators] is fixed at construction
    and is represented by [ValidatorKind] below. *)
Record Controller := mkController {
  execution_history : list HistoryEntry;
  step_attempts : gmap string nat;
}.

(** [ExecutionController.__init__]. *)
Definition init : Controller :=
  {| execution_history := []; step_attempts := ∅ |}.

(** The keys of [self.step_validators], and [DefaultValidator()]. *)
Inductive ValidatorKind :=
  | web_search
  | image_generation
  | document_creation
  | format_conversion
  | default_validator.

(** The observable calls a run of [execute_step] makes, in order. *)
Inductive Call :=
  | CallRepeatCheck (step_id : string)
  | CallValidator (validator : ValidatorKind).

Definition step_id_of (step_info : StepInfo) : string :=
  (agent_name step_info ++ "_" ++ title step_info)%string.

Definition _get_validator (step_info : StepInfo) : ValidatorKind :=
  let agent_name := agent_name step_info in
  let step_content := PyStr.lower (details step_info) in
  if String.eqb agent_name "web_surfer" then web_search
  else if String.eqb agent_name "image_generator" then image_generation
  else if PyStr.contains "markdown" step_content || PyStr.contains "文档" step_content
  then document_creation
  else if PyStr.contains "html" step_content || PyStr.contains "pdf" step_content
  then format_conversion
  else default_validator.

Definition repeated_result : ExecutionResult :=
  {| success := false;
     reason := "检测到重复执行，跳过此步骤";
     action := Some "continue_to_next";
     extracted_data := None;
     image_info := None |}.

(** A computation over the controller that also records the calls it
    makes. *)
Definition M (A : Type) : Type := Controller → A * Controller * list Call.

Definition ret {A} (a : A) : M A := fun self => (a, self, []).

Definition bind {A B} (m : M A) (k : A → M B) : M B :=
  fun self =>
    let '(a, self1, calls1) := m self in
    let '(b, self2, calls2) := k a self1 in
    (b, self2, calls1 ++ calls2).

Notation "x ←ₘ m ;; k" := (bind m (fun x => k))
  (at level 100, m at next level, right associativity).
Notation "m ;;ₘ k" := (bind m (fun _ => k))
  (at level 100, right associativity).

Section Controller.

(** The parts that the listing refers to without defining them: the
    repetition test, and the validators for document creation, format
    conversion and the default case. *)
Variable _is_repeated_execution : Controller → string → string → bool.
Variable DocumentCreationValidator : StepInfo → string → ExecutionResult.
Variable FormatConversionValidator : StepInfo → string → ExecutionResult.
Variable DefaultValidator : StepInfo → string → ExecutionResult.

Definition validate_completion (validator : ValidatorKind)
  : StepInfo → string → ExecutionResult :=
  match validator with
  | web_search => WebSearchValidator.validate_completion
  | image_generation => ImageGenerationValidator.validate_completion
  | document_creation => DocumentCreationValidator
  | format_conversion => FormatConversionValidator
  | default_validator => DefaultValidator
  end.

Definition record_history (entry : HistoryEntry) : M unit :=
  fun self =>
    (tt, {| execution_history := execution_history self ++ [entry];
            step_attempts := step_attempts self |}, []).

Definition check_repeated (step_id agent_response : string) : M bool :=
  fun self =>
    (_is_repeated_execution self step_id agent_response, self,
     [CallRepeatCheck step_id]).

Definition run_validator (validator : ValidatorKind) (step_info : StepInfo)
    (agent_response : string) : M ExecutionResult :=
  fun self =>
    (validate_completion validator step_info agent_response, self,
     [CallValidator validator]).

Definition count_attempt (step_id : string) : M unit :=
  fun self =>
    (tt, {| execution_history := execution_history self;
            step_attempts :=
              <[step_id := (default 0 (step_attempts self !! step_id) + 1)%nat]>
                (step_attempts self) |}, []).

(** [execute_step(step_info, agent_response)]; [now] is the value of
    [datetime.now()] at the call. *)
Definition execute_step (now : nat) (step_info : StepInfo) (agent_response : string)
  : M ExecutionResult :=
  let step_id := step_id_of step_info in
  record_history {| entry_step_id := step_id;
                    entry_timestamp := now;
                    entry_agent := agent_name step_info;
                    entry_response := agent_response |} ;;ₘ
  repeated ←ₘ check_repeated step_id agent_response ;;
  if repeated then ret repeated_result
  else
    let validator := _get_validator step_info in
    validation_result ←ₘ run_validator validator step_info agent_response ;;
    count_attempt step_id ;;ₘ
    ret validation_result.

(** One call of [execute_step] as the orchestrator makes it. *)
Record Request := mkRequest {
  request_time : nat;
  request_step : StepInfo;
  request_response : string;
}.

Definition entry_of (rq : Request) : HistoryEntry :=
  {| entry_step_id := step_id_of (request_step rq);
     entry_timestamp := request_time rq;
     entry_agent := agent_name (request_step rq);
     entry_response := request_response rq |}.

(** The controller once the entry of the current call has been appended:
    this is the object the repetition test looks at. *)
Definition recorded (self : Controller) (rq : Request) : Controller :=
  {| execution_history := execution_history self ++ [entry_of rq];
     step_attempts := step_attempts self |}.

(** The controller after a sequence of calls on one controller object. *)
Definition run_calls (requests : list Request) (self : Controller) : Controller :=
  fold_left
    (fun self rq =>
       (execute_step (request_time rq) (request_step rq) (request_response rq) self).1.2)
    requests self.

End Controller.

(** Modelled from the spec: the body of [_is_repeated_execution], which the
    listing calls but does not define.  The refactoring's execution rules
    forbid an answer that repeats earlier content, and the loop rules allow
    no action to repeat; accordingly a call is a repetition when the history
    before this call already holds an entry with the same step id and the
    same response.  The entry of the current call has been appended before
    the test, so it is the occurrence count that is compared with 1. *)
Definition is_repeated_by_history (self : Controller) (step_id agent_response : string)
  : bool :=
  (1 <? length (filter (fun e => entry_step_id e = step_id
                                   ∧ entry_response e = agent_response)
                        (execution_history self)))%nat.

End ExecutionController.

(** ** Step execution manager (the comprehensive refactoring plan) *)

Module StepExecutionManager.

(** [ValidationResult(completed=confidence > 0.8, confidence=..., evidence=...)]:
    the engine compares a floating-point confidence with 0.8; the manager
    reads only the outcome of that comparison and the evidence. *)
Record ValidationResult := mkValidationResult {
  completed : bool;
  evidence : list string;
}.

(** [LoopDetectionResult(detected=..., pattern_type=..., ...)]. *)
Record LoopDetectionResult := mkLoopDetectionResult {
  detected : bool;
  pattern_type : option string;
}.

(** [ExecutionResult(success=..., next_action=...)] as this listing builds it. *)
Record ManagerResult := mkManagerResult {
  manager_success : bool;
  next_action : string;
}.

Inductive Call :=
  | CallInitialize
  | CallAgent
  | CallValidationEngine
  | CallLoopDetector
  | CallTransition (from_state to_state : string)
  | CallHandleLoop
  | CallHandleError.

Section Manager.

(** [StepInfo], [ContextData] and the execution record of this listing, and
    the collaborators it calls.  [transition] answers [None] when the state
    machine raises [InvalidStateTransition]; the other collaborators are
    taken to return.  The error handler is given the exception as well; the
    exception value is not represented and the handler depends on the step
    alone. *)
Context {StepInfoT ContextData ExecutionInfo : Type}.
Variable _initialize_step_execution : StepInfoT → ExecutionInfo.
Variable _get_agent_response : StepInfoT → ContextData → string.
Variable validate_step_completion : string → StepInfoT → ValidationResult.
Variable detect_problematic_loops : list string → StepInfoT → LoopDetectionResult.
Variable transition : string → string → list string → option string.
Variable _handle_loop_detection : LoopDetectionResult → ExecutionInfo → ManagerResult.
Variable _handle_execution_error : StepInfoT → ManagerResult.

Definition execute_step (step_info : StepInfoT) (context : ContextData)
  : ManagerResult * list Call :=
  let execution_info := _initialize_step_execution step_info in
  let agent_response := _get_agent_response step_info context in
  let validation_result := validate_step_completion agent_response step_info in
  let loop_result := detect_problematic_loops [agent_response] step_info in
  let calls := [CallInitialize; CallAgent; CallValidationEngine; CallLoopDetector] in
  if completed validation_result then
    match transition "in_progress" "completed" (evidence validation_result) with
    | Some new_state =>
        ({| manager_success := true; next_action := "advance" |},
         calls ++ [CallTransition "in_progress" "completed"])
    | None =>
        (_handle_execution_error step_info,
         calls ++ [CallTransition "in_progress" "completed"; CallHandleError])
    end
  else if detected loop_result then
    (_handle_loop_detection loop_result execution_info, calls ++ [CallHandleLoop])
  else
    ({| manager_success := false; next_action := "continue" |}, calls).

End Manager.

End StepExecutionManager.

(** ** Boundary control ([ConfigDrivenBoundaryController] and the boundary
    profile) *)

Module BoundaryController.

(** One entry of [task_boundaries]: a YAML mapping, so every key may be
    missing. *)
Record BoundaryConfig := mkBoundaryConfig {
  max_actions : option nat;
  time_limit : option nat;
  success_criteria : option (list string);
  stop_conditions : option (list string);
  autonomous_mode : option bool;
  approval_threshold : option string;
}.

Record BoundarySettings := mkBoundarySettings {
  settings_max_actions : nat;
  settings_time_limit : nat;
  settings_success_criteria : list string;
  settings_autonomous_mode : bool;
}.

(** The [task_boundaries] section of the shipped boundary configuration. *)
Definition web_research : BoundaryConfig :=
  {| max_actions := Some 4; time_limit := Some 180;
     success_criteria := Some ["找到产品信息"; "获取技术规格"; "收集价格信息"; "访问成功"];
     stop_conditions := Some ["访问被阻止"; "页面加载失败"; "找不到相关信息"];
     autonomous_mode := Some true; approval_threshold := Some "low" |}.

Definition image_generation : BoundaryConfig :=
  {| max_actions := Some 2; time_limit := Some 60;
     success_criteria := Some ["图像生成完成"; "图像质量满足要求"; "生成任务已完成"];
     stop_conditions := Some ["API调用失败"; "生成内容不当"; "图像生成错误"];
     autonomous_mode := Some true; approval_threshold := Some "never" |}.

Definition document_creation : BoundaryConfig :=
  {| max_actions := Some 3; time_limit := Some 120;
     success_criteria := Some ["文档创建完成"; "内容格式正确"; "保存成功"];
     stop_conditions := Some ["文件保存失败"; "格式转换错误"];
     autonomous_mode := Some true; approval_threshold := Some "low" |}.

Definition code_execution : BoundaryConfig :=
  {| max_actions := Some 5; time_limit := Some 300;
     success_criteria := Some ["代码执行成功"; "输出结果正确"];
     stop_conditions := Some ["代码执行错误"; "安全风险检测"];
     autonomous_mode := Some false; approval_threshold := Some "high" |}.

Definition default_boundary : BoundaryConfig :=
  {| max_actions := Some 3; time_limit := Some 150;
     success_criteria := Some ["任务完成"];
     stop_conditions := Some ["执行错误"];
     autonomous_mode := Some true; approval_threshold := Some "normal" |}.

Definition task_boundaries : gmap string BoundaryConfig :=
  <["web_research" := web_research]>
  (<["image_generation" := image_generation]>
  (<["document_creation" := document_creation]>
  (<["code_execution" := code_execution]>
  (<["default" := default_boundary]> ∅)))).

(** Building [BoundarySettings] from an entry: subscripting a missing key
    raises [KeyError] ([None]); [autonomous_mode] is read with
    [.get(..., False)]. *)
Definition settings_of (boundary_config : BoundaryConfig) : option BoundarySettings :=
  max_actions ← max_actions boundary_config;
  time_limit ← time_limit boundary_config;
  success_criteria ← success_criteria boundary_config;
  Some {| settings_max_actions := max_actions;
          settings_time_limit := time_limit;
          settings_success_criteria := success_criteria;
          settings_autonomous_mode := default false (autonomous_mode boundary_config) |}.

(** [self.config.get(task_type, self.config['default'])] followed by the
    construction of the settings.  Python evaluates the fallback argument
    [self.config['default']] before the lookup, so a profile without a
    [default] entry raises [KeyError] for every task type. *)
Definition limits_for (config : gmap string BoundaryConfig) (task_type : string)
  : option BoundarySettings :=
  fallback ← config !! "default";
  let boundary_config := default fallback (config !! task_type) in
  settings_of boundary_config.

(** The controller object: [self.config], the [task_boundaries] mapping of
    the loaded profile (the mapping that holds the [default] entry), and
    [self.monitors], keyed by step index; a [BoundaryMonitor] is represented
    by the settings it was created with. *)
Record Controller := mkController {
  config : gmap string BoundaryConfig;
  monitors : gmap nat BoundarySettings;
}.

Section Setup.

Context {StepInfoT : Type}.
Variable _identify_task_type : StepInfoT → string.
Variable step_index : StepInfoT → nat.

Definition setup_boundaries (self : Controller) (step_info : StepInfoT)
  : option (BoundarySettings * Controller) :=
  let task_type := _identify_task_type step_info in
  settings ← limits_for (config self) task_type;
  Some (settings,
        {| config := config self;
           monitors := <[step_index step_info := settings]> (monitors self) |}).

End Setup.

End BoundaryController.

(** ** Worker-side loop guard and the completion patterns of the
    orchestrator (the workflow fixes) *)

Module WebSurfer.

(** [Response(chat_message=TextMessage(content, source, metadata))]. *)
Record Response := mkResponse {
  content : string;
  source : string;
  metadata_internal : string;
}.

(** The message the main loop yields when the loop guard fires. *)
Definition loop_completion_content : string :=
  "✅ 当前步骤已完成：已成功访问te720.com全景相机官网。虽然检测到重复操作，但已收集到足够的产品信息用于后续图像生成。避免进一步的重复浏览以提高效率。".

Section MainLoop.

Variable name : string.
Variable _detect_loop_before_action : string → string → bool.
Variable _should_auto_complete_step : bool.
Variable _generate_auto_completion_message : string.

(** The guard at the head of the action loop: [Some r] when the generator
    yields [r] and returns, [None] when the tool call goes ahead. *)
Definition before_action (tool_call_name tool_call_msg : string) : option Response :=
  if _detect_loop_before_action tool_call_name tool_call_msg then
    Some {| content := loop_completion_content;
            source := name;
            metadata_internal := "no" |}
  else if _should_auto_complete_step then
    Some {| content := _generate_auto_completion_message;
            source := name;
            metadata_internal := "no" |}
  else None.

End MainLoop.

(** The pattern test of [_is_step_truly_complete] shown with the fix:
    a response that reports browsing actions and mentions the product is
    accepted as complete. *)
Definition websurfer_recovery_signals : list string :=
  [ "研究任务基本完成"; "已成功访问te720.com"; "收集到足够的产品信息";
    "页面导航正常"; "已完成的操作"; "虽然遇到截图超时";
    "✅ 当前步骤已完成"; "当前步骤已完成"; "已成功访问"; "已收集到足够的信息" ].

Definition websurfer_action_patterns : list string :=
  [ "hovered over"; "clicked"; "visited"; "accessed"; "navigated";
    "悬停"; "点击"; "访问"; "导航"; "浏览"; "action:"; "observation:" ].

Definition product_indicators : list string :=
  [ "360"; "camera"; "全景"; "teche"; "product"; "产品" ].

Definition actions_and_product (agent_response : string) : bool :=
  let agent_response_lower := PyStr.lower agent_response in
  let has_websurfer_actions := PyStr.any_in websurfer_action_patterns agent_response_lower in
  let has_product_content := PyStr.any_in product_indicators agent_response_lower in
  has_websurfer_actions && has_product_content.

End WebSurfer.

(** ** Loop detection *)

Module LoopDetector.

(** Modelled from the spec: the action events of the loop detector, which
    is not among the sources.  One discrete action of the current step
    attempt: its signature, and whether it produced a new progress signal (a
    newly extracted fact, a new page or state reached). *)
Record Action := mkAction {
  signature : string;
  progress : bool;
}.

(** Modelled from the spec: the configuration of the loop detector, which
    is not among the sources: the number of repeats that makes a loop and
    the length of the rolling window. *)
Record Config := mkConfig {
  repeat_threshold : nat;
  window : nat;
}.

(** Modelled from the spec: the default configuration, which is not among
    the sources: one repeat is a loop, the window holds five actions.  The
    prompt rules agree on the first: never repeat the same action more than
    once. *)
Definition default_config : Config := {| repeat_threshold := 1; window := 5 |}.

(** Modelled from the spec: the two recommendations of the loop detector,
    which is not among the sources. *)
Inductive Recommendation :=
  | force_complete_with_partial_evidence
  | abort_and_retry_with_different_approach.

(** Modelled from the spec: the answer [{loopDetected, pattern,
    recommendation}] of the loop detector, which is not among the sources. *)
Record Detection := mkDetection {
  loopDetected : bool;
  pattern : option string;
  recommendation : option Recommendation;
}.

(** Modelled from the spec: the repetition test of the loop detector, which
    is not among the sources.  [seen] counts the earlier occurrences of
    every signature; an action whose signature has already occurred
    [threshold] times or more is a repeat beyond the threshold. *)
Fixpoint find_repeat (threshold : nat) (seen : gmap string nat) (actions : list Action)
  : option string :=
  match actions with
  | [] => None
  | a :: rest =>
      let earlier := default 0 (seen !! signature a) in
      if threshold <=? earlier then Some (signature a)
      else find_repeat threshold (<[signature a := S earlier]> seen) rest
  end.

(** Modelled from the spec: the rolling-window test of the loop detector,
    which is not among the sources.  [stagnant] is the length of the current
    run of actions without a progress signal; a run of [window] such actions
    is a stall. *)
Fixpoint find_stall (window stagnant : nat) (actions : list Action) : bool :=
  match actions with
  | [] => false
  | a :: rest =>
      if progress a then find_stall window 0 rest
      else (window <=? S stagnant) || find_stall window (S stagnant) rest
  end.

(** Modelled from the spec: the recommendation of the loop detector, which
    is not among the sources: force completion with partial evidence when
    some useful content was gathered, abort and retry otherwise. *)
Definition recommend (actions : list Action) : Recommendation :=
  if existsb progress actions then force_complete_with_partial_evidence
  else abort_and_retry_with_different_approach.

(** Modelled from the spec: [LoopDetector.detect], whose implementation
    ([_detect_loop_before_action], the pattern and progress analysers) is
    not among the sources.  A loop is flagged when a signature
    repeats beyond the threshold (by default one repeat is a loop) or when a
    rolling window of actions shows no progress signal; the recommendation
    is to force completion with partial evidence when something useful was
    gathered, and to abort and retry otherwise. *)
Definition detect (cfg : Config) (actionHistoryForCurrentStep : list Action) : Detection :=
  let repeated := find_repeat (repeat_threshold cfg) ∅ actionHistoryForCurrentStep in
  let stalled := find_stall (window cfg) 0 actionHistoryForCurrentStep in
  if bool_decide (is_Some repeated) || stalled then
    {| loopDetected := true;
       pattern := if repeated is Some s then Some s else Some "no-progress window";
       recommendation := Some (recommend actionHistoryForCurrentStep) |}
  else
    {| loopDetected := false; pattern := None; recommendation := None |}.

End LoopDetector.

(** ** The step state machine of the orchestrator *)

Module Orchestrator.

(** The execution states of [step_execution_status], as the project notes
    list them. *)
Inductive StepStatus := not_started | in_progress | completed | failed | skipped.

(** Modelled from the spec: the completion tiers, of which the sources show
    only the three families of completion signals. *)
Inductive CompletionTier := clean_success | success_with_errors | success_via_fallback.

(** Modelled from the spec: the answers of [runStep], which is not among
    the sources. *)
Inductive NextAction := Advance | RetryStep | EscalateToHuman | AbortPlan.

#[global] Instance StepStatus_eq_dec : EqDecision StepStatus.
Proof. solve_decision. Defined.

(** Modelled from the spec: the step execution record, which is not among
    the sources.  One record per step: status, attempt count, the worker
    responses of the current attempt, and the evidence of the last status
    transition. *)
Record StepExecutionRecord := mkStepExecutionRecord {
  status : StepStatus;
  attempt_count : nat;
  responses : list string;
  evidence : list string;
  tier : option CompletionTier;
}.

(** Modelled from the spec: the record of a step that was never run,
    which is not among the sources. *)
Definition fresh_record : StepExecutionRecord :=
  {| status := not_started; attempt_count := 0; responses := [];
     evidence := []; tier := None |}.

(** Modelled from the spec: the orchestrator state, of which the sources
    name the fields [current_step_idx] and [step_execution_status] without
    showing the class.  The index, the execution records keyed by step index
    and the context snapshot. *)
Record ExecutionSession := mkExecutionSession {
  current_step_idx : nat;
  step_execution_status : gmap nat StepExecutionRecord;
  context_snapshot : list (nat * string);
}.

(** Modelled from the spec: the state at the start of a plan, which is not
    among the sources. *)
Definition init : ExecutionSession :=
  {| current_step_idx := 0; step_execution_status := ∅; context_snapshot := [] |}.

(** Modelled from the spec: reading the record and the status of a step,
    which are not among the sources; a step without record is
    [not_started]. *)
Definition record_of (st : ExecutionSession) (i : nat) : StepExecutionRecord :=
  default fresh_record (step_execution_status st !! i).

(** Modelled from the spec: see [record_of]. *)
Definition status_of (st : ExecutionSession) (i : nat) : StepStatus :=
  status (record_of st i).

(** Modelled from the spec: the answer [{approved, reason, evidence}] of
    the completion validator, whose interface is not among the sources,
    with the completion tier it annotates. *)
Record Validation := mkValidation {
  approved : bool;
  validation_reason : string;
  validation_evidence : string;
  validation_tier : CompletionTier;
}.

(** Modelled from the spec: the outcome of a dispatch, which is not among
    the sources.  What one dispatch to the worker produced: the action
    events, the final response, and whether the boundary monitor reported
    the limit exceeded. *)
Record Dispatch := mkDispatch {
  actionEvents : list LoopDetector.Action;
  finalResponse : string;
  boundary_exceeded : bool;
}.

(** Modelled from the spec: the input of [runStep], which is not among the
    sources.  One call: the step index the caller was given, and the
    worker's answer to the dispatch made by this call. *)
Record Invocation := mkInvocation {
  given_step_idx : nat;
  dispatched : Dispatch;
}.

Section RunStep.

Variable validate : nat → string → Validation.
Variable loop_config : LoopDetector.Config.
Variable max_attempts : nat.
Variable exhausted_policy : NextAction.

(** Modelled from the spec: writing the record of a step, which is not
    among the sources; the index and the context are left alone. *)
Definition store (st : ExecutionSession) (i : nat) (r : StepExecutionRecord)
  : ExecutionSession :=
  {| current_step_idx := current_step_idx st;
     step_execution_status := <[i := r]> (step_execution_status st);
     context_snapshot := context_snapshot st |}.

(** Modelled from the spec: the advancement of [_orchestrator.py], of which
    the sources quote the statements (context update, mark completed,
    [current_step_idx += 1]) and say that the index is incremented in one
    location.  The record of the current step becomes [completed] with its
    evidence, its outcome is appended to the context snapshot, and the index
    is incremented once. *)
Definition advance (st : ExecutionSession) (r : StepExecutionRecord)
    (t : CompletionTier) (ev : string) (summary : string) : ExecutionSession :=
  let idx := current_step_idx st in
  {| current_step_idx := S idx;
     step_execution_status :=
       <[idx := {| status := completed;
                   attempt_count := attempt_count r;
                   responses := responses r;
                   evidence := [ev];
                   tier := Some t |}]> (step_execution_status st);
     context_snapshot := context_snapshot st ++ [(idx, summary)] |}.

(** Modelled from the spec: the handling of a rejection, which is not among
    the sources: a new attempt while the attempt count stays below the
    maximum (the attempt's responses are cleared), otherwise [failed]. *)
Definition retry_or_fail (st : ExecutionSession) (r : StepExecutionRecord)
    (why : string) : NextAction * ExecutionSession :=
  let idx := current_step_idx st in
  let attempts := S (attempt_count r) in
  if attempts <? max_attempts then
    (RetryStep,
     store st idx {| status := in_progress; attempt_count := attempts;
                     responses := []; evidence := [why]; tier := None |})
  else
    (exhausted_policy,
     store st idx {| status := failed; attempt_count := attempts;
                     responses := responses r; evidence := [why]; tier := None |}).

(** Modelled from the spec: the record [runStep] works on, which is not
    among the sources: the record of the current step, now in progress, with
    the response of this dispatch added. *)
Definition working_record (st : ExecutionSession) (inv : Invocation)
  : StepExecutionRecord :=
  let r := record_of st (current_step_idx st) in
  {| status := in_progress;
     attempt_count := attempt_count r;
     responses := responses r ++ [finalResponse (dispatched inv)];
     evidence := evidence r;
     tier := None |}.

(** Modelled from the spec: the outcome of evaluating one dispatch, which
    is not among the sources. *)
Inductive Decision :=
  | Complete (t : CompletionTier) (ev : string)
  | Reject (why : string).

(** Modelled from the spec: the evaluation of a dispatch, which is not
    among the sources.  Loop detection and the boundary monitor come first
    and short-circuit validation: they force completion with partial
    evidence, or a retry.  Otherwise the validator decides. *)
Definition evaluate (idx : nat) (d : Dispatch) : Decision :=
  let detection := LoopDetector.detect loop_config (actionEvents d) in
  if LoopDetector.loopDetected detection || boundary_exceeded d then
    match LoopDetector.recommend (actionEvents d) with
    | LoopDetector.force_complete_with_partial_evidence =>
        Complete success_via_fallback "forced completion with partial evidence"
    | LoopDetector.abort_and_retry_with_different_approach =>
        Reject "loop or boundary limit without useful content"
    end
  else
    let v := validate idx (finalResponse d) in
    if approved v then Complete (validation_tier v) (validation_evidence v)
    else Reject (validation_reason v).

(** Modelled from the spec: [runStep], the step-advancement logic of
    [_orchestrator.py], of which the sources show only the approval branch
    (context update, mark completed, index increment, return).  Entry guard
    against an index that a concurrent caller already advanced; a failed
    step is not restarted; the dispatch is evaluated; a completed step
    advances, a rejected one is retried up to the attempt limit. *)
Definition runStep (inv : Invocation) (st : ExecutionSession)
  : NextAction * ExecutionSession :=
  let idx := current_step_idx st in
  if negb (given_step_idx inv =? idx) then (Advance, st)
  else if bool_decide (status_of st idx = failed) then (exhausted_policy, st)
  else
    let d := dispatched inv in
    let r := working_record st inv in
    match evaluate idx d with
    | Complete t ev => (Advance, advance st r t ev (finalResponse d))
    | Reject why => retry_or_fail st r why
    end.

(** Modelled from the spec: the four ways a call of [runStep] can go, as a
    relation between the call, the state before, and the answer with the
    state after; [runStep] is not among the sources. *)
Inductive step_case (inv : Invocation) (st : ExecutionSession)
  : NextAction * ExecutionSession → Prop :=
  | case_already_advanced :
      given_step_idx inv ≠ current_step_idx st →
      step_case inv st (Advance, st)
  | case_failed :
      given_step_idx inv = current_step_idx st →
      status_of st (current_step_idx st) = failed →
      step_case inv st (exhausted_policy, st)
  | case_complete t ev :
      given_step_idx inv = current_step_idx st →
      evaluate (current_step_idx st) (dispatched inv) = Complete t ev →
      step_case inv st
        (Advance,
         advance st (working_record st inv) t ev (finalResponse (dispatched inv)))
  | case_reject why (a : NextAction) (r : StepExecutionRecord) :
      given_step_idx inv = current_step_idx st →
      evaluate (current_step_idx st) (dispatched inv) = Reject why →
      status r ≠ completed →
      step_case inv st (a, store st (current_step_idx st) r).

(** Modelled from the spec: the driver, which is not among the sources: one
    [runStep] per invocation, each re-reading the state. *)
Definition run (trace : list Invocation) (st : ExecutionSession) : ExecutionSession :=
  fold_left (fun st inv => snd (runStep inv st)) trace st.

End RunStep.

(** Modelled from the spec: the invariant of the state machine, which is
    not among the sources: the completed steps are exactly the steps below
    [current_step_idx]. *)
Definition completed_below (st : ExecutionSession) : Prop :=
  ∀ i, status_of st i = completed ↔ i < current_step_idx st.

End Orchestrator.

(** ** Sample inputs *)

Module Samples.

(** The first step of the panoramic-camera plan. *)
Definition research_step : StepInfo :=
  {| agent_name := "web_surfer"; title := "访问参考网站";
     details := "访问te720.com收集产品信息" |}.

(** The minimum length of an informative answer stated by the execution
    control rules (answers shorter than 50 characters are not to count as
    complete). *)
Definition min_response_length : nat := 50.

Definition short_completed_response : string := "✅ TASK COMPLETED 产品".

Definition deflecting_completed_response : string :=
  "Let me help you ✅ TASK COMPLETED 产品".

Definition deflecting_image_response : string := "Let me help you with the image".

Definition english_image_step : StepInfo :=
  {| agent_name := ""; title := "Generate an image"; details := "" |}.

Definition image_and_document_step : StepInfo :=
  {| agent_name := ""; title := "生成产品图像";
     details := "把图像插入markdown文档，并转换为html和pdf" |}.

(** The limits of the [default] entry of the shipped boundary profile. *)
Definition default_settings : BoundaryController.BoundarySettings :=
  {| BoundaryController.settings_max_actions := 3;
     BoundaryController.settings_time_limit := 150;
     BoundaryController.settings_success_criteria := ["任务完成"];
     BoundaryController.settings_autonomous_mode := true |}.

(** An action history in which the same link is clicked twice. *)
Definition repeated_click : list LoopDetector.Action :=
  [ LoopDetector.mkAction "click:样片" true;
    LoopDetector.mkAction "visit:te720.com/product" true;
    LoopDetector.mkAction "click:样片" false ].

(** Stand-in for the validators that the listing names without defining
    them; the sample steps below are web and image steps and never reach
    it. *)
Definition unlisted_validator : StepInfo → string → ExecutionResult :=
  fun _ _ => {| success := false; reason := ""; action := None;
                extracted_data := None; image_info := None |}.

Definition image_step : StepInfo :=
  {| agent_name := "image_generator"; title := "生成产品图像";
     details := "生成高质量CG风格的360度全景相机图像" |}.

Definition research_report : string :=
  "✅ 任务已完成：已访问te720.com，收集到全景相机产品的规格和功能信息。".

Definition research_request (now : nat) : ExecutionController.Request :=
  {| ExecutionController.request_time := now;
     ExecutionController.request_step := research_step;
     ExecutionController.request_response := research_report |}.

Definition image_request (now : nat) : ExecutionController.Request :=
  {| ExecutionController.request_time := now;
     ExecutionController.request_step := image_step;
     ExecutionController.request_response := "图像已成功生成：camera_360.png" |}.

(** Collaborators of the step execution manager for a response that the
    validation engine accepts while the loop detector reports a loop. *)
Definition looping_worker : StepInfo → unit → string :=
  fun _ _ => "clicked 样片; clicked 样片; clicked 样片; 产品 ✅ 当前步骤已完成".

Definition approving_engine : string → StepInfo → StepExecutionManager.ValidationResult :=
  fun _ _ => {| StepExecutionManager.completed := true;
                StepExecutionManager.evidence := ["completion pattern matched"] |}.

Definition alarmed_detector
  : list string → StepInfo → StepExecutionManager.LoopDetectionResult :=
  fun _ _ => {| StepExecutionManager.detected := true;
                StepExecutionManager.pattern_type := Some "repeated action" |}.

Definition permissive_transition : string → string → list string → option string :=
  fun _ to_state _ => Some to_state.

Definition retry_on_loop
  : StepExecutionManager.LoopDetectionResult → unit → StepExecutionManager.ManagerResult :=
  fun _ _ => {| StepExecutionManager.manager_success := false;
                StepExecutionManager.next_action := "retry" |}.

Definition abort_on_error : StepInfo → StepExecutionManager.ManagerResult :=
  fun _ => {| StepExecutionManager.manager_success := false;
              StepExecutionManager.next_action := "abort" |}.

(** A validator that approves nothing. *)
Definition never_approves : nat → string → Orchestrator.Validation :=
  fun _ _ => {| Orchestrator.approved := false;
                Orchestrator.validation_reason := "no completion signal";
                Orchestrator.validation_evidence := "";
                Orchestrator.validation_tier := Orchestrator.clean_success |}.

(** A validator that follows the web-search validator. *)
Definition web_validation : nat → string → Orchestrator.Validation :=
  fun _ agent_response =>
    let result := WebSearchValidator.validate_completion research_step agent_response in
    {| Orchestrator.approved := success result;
       Orchestrator.validation_reason := reason result;
       Orchestrator.validation_evidence := agent_response;
       Orchestrator.validation_tier := Orchestrator.clean_success |}.

(** The worker clicked the same link twice and its answer reports nothing. *)
Definition looping_dispatch : Orchestrator.Dispatch :=
  {| Orchestrator.actionEvents := repeated_click;
     Orchestrator.finalResponse := "clicked 样片 again";
     Orchestrator.boundary_exceeded := false |}.

Definition deflecting_dispatch : Orchestrator.Dispatch :=
  {| Orchestrator.actionEvents := [LoopDetector.mkAction "answer" false];
     Orchestrator.finalResponse := "Let me help you";
     Orchestrator.boundary_exceeded := false |}.

Definition reporting_dispatch : Orchestrator.Dispatch :=
  {| Orchestrator.actionEvents := [LoopDetector.mkAction "visit:te720.com" true];
     Orchestrator.finalResponse := research_report;
     Orchestrator.boundary_exceeded := false |}.

(** The three-step scenario: a deflection, then a valid report for the first
    step, then a worker that repeats an action on the second step. *)
Definition scenario : list Orchestrator.Invocation :=
  [ Orchestrator.mkInvocation 0 deflecting_dispatch;
    Orchestrator.mkInvocation 0 reporting_dispatch;
    Orchestrator.mkInvocation 1 looping_dispatch ].

End Samples.

(** ** Relevance of a response to a step (the interruption analysis) *)

Module StepRelevance.

(** The [step_keywords] dictionary, in insertion order. *)
Definition step_keywords : list (string * list string) :=
  [ ("html", ["html"; "排版"; "format"; "layout"; "css"]);
    ("pdf", ["pdf"; "输出"; "output"; "export"; "final"]);
    ("markdown", ["markdown"; ".md"; "文档"; "document"]);
    ("image", ["image"; "图像"; "generate"; "生成"]);
    ("research", ["search"; "搜索"; "visit"; "访问"]) ].

(** The loop over the step types: the first type with a keyword in the
    title decides, by its own keywords, whether the response is relevant;
    a title of no type is relevant to everything. *)
Fixpoint relevant_by (types : list (string * list string))
    (agent_response step_title : string) : bool :=
  match types with
  | [] => true
  | (step_type, keywords) :: rest =>
      if PyStr.any_in keywords (PyStr.lower step_title)
      then PyStr.any_in keywords (PyStr.lower agent_response)
      else relevant_by rest agent_response step_title
  end.

Definition _is_response_relevant_to_step (agent_response step_title : string) : bool :=
  relevant_by step_keywords agent_response step_title.

End StepRelevance.

(** ** Agent state bus (the logic check report) *)

Module PyText.

(** [s.split(sep)] for a separator of one character: the pieces between
    the separators, empty pieces included. *)
Fixpoint split (sep : ascii) (s : string) : list string :=
  match s with
  | EmptyString => [EmptyString]
  | String c rest =>
      if Ascii.eqb c sep then EmptyString :: split sep rest
      else match split sep rest with
           | seg :: segs => String c seg :: segs
           | [] => [String c EmptyString]
           end
  end.

(** The ASCII characters that [int] skips at both ends of its argument. *)
Definition is_space (c : ascii) : bool :=
  let n := Ascii.nat_of_ascii c in
  (9 <=? n) && (n <=? 13) || (28 <=? n) && (n <=? 32).

Fixpoint lstrip (s : string) : string :=
  match s with
  | EmptyString => EmptyString
  | String c rest => if is_space c then lstrip rest else s
  end.

Fixpoint rstrip (s : string) : string :=
  match s with
  | EmptyString => EmptyString
  | String c rest =>
      match rstrip rest with
      | EmptyString => if is_space c then EmptyString else String c EmptyString
      | kept => String c kept
      end
  end.

(** Whether a text is plain ASCII. *)
Fixpoint is_ascii (s : string) : bool :=
  match s with
  | EmptyString => true
  | String c rest => (Ascii.nat_of_ascii c <? 128) && is_ascii rest
  end.

(** [int(s)] for a piece produced by [split("_")], hence without
    underscores: surrounding white space, an optional sign, decimal digits;
    [None] is the [ValueError].  Digits and white space outside ASCII, which
    Python accepts as well, are outside this model: it is [int] on the texts
    that satisfy [is_ascii]. *)
Definition int_of_text (s : string) : option Z :=
  let text := rstrip (lstrip s) in
  Z.of_int <$>
    match text with
    | String "+"%char digits => Decimal.Pos <$> NilZero.uint_of_string digits
    | _ => NilZero.int_of_string text
    end.

(** Whether a text contains one of the ASCII capitals [A] to [Z]. *)
Fixpoint has_upper (s : string) : bool :=
  match s with
  | EmptyString => false
  | String c rest =>
      let n := Ascii.nat_of_ascii c in
      (65 <=? n) && (n <=? 90) || has_upper rest
  end.

(** Whether a text contains the character [c]. *)
Fixpoint has_char (c : ascii) (s : string) : bool :=
  match s with
  | EmptyString => false
  | String d rest => Ascii.eqb d c || has_char c rest
  end.

(** [str(n)], as the f-string formats an [int]. *)
Definition str_of_int (n : Z) : string := NilZero.string_of_int (Z.to_int n).

End PyText.

Module AgentStateBus.

Inductive PyError := IndexError | ValueError.

Section Bus.

Context {Output : Type}.

(** [d[k] = v] on a dictionary kept in insertion order: an existing key
    keeps its place. *)
Fixpoint dict_set (d : list (string * Output)) (k : string) (v : Output)
  : list (string * Output) :=
  match d with
  | [] => [(k, v)]
  | (k', v') :: rest =>
      if String.eqb k' k then (k, v) :: rest else (k', v') :: dict_set rest k v
  end.

(** [f"{agent_name}_{step_idx}"]. *)
Definition key_of (agent_name : string) (step_idx : Z) : string :=
  (agent_name ++ "_" ++ PyText.str_of_int step_idx)%string.

(** [register_output]; the bus is its [agent_outputs] dictionary (the
    [shared_state] dictionary is never touched). *)
Definition register_output (agent_outputs : list (string * Output))
    (agent_name : string) (step_idx : Z) (output : Output) : list (string * Output) :=
  dict_set agent_outputs (key_of agent_name step_idx) output.

(** [int(k.split('_')[1])]. *)
Definition key_step (k : string) : PyError + Z :=
  match PyText.split "_" k !! 1 with
  | None => inl IndexError
  | Some piece =>
      match PyText.int_of_text piece with
      | None => inl ValueError
      | Some n => inr n
      end
  end.

(** [get_previous_outputs]: the comprehension visits the items in order and
    the first key that fails raises. *)
Fixpoint get_previous_outputs (agent_outputs : list (string * Output))
    (current_step : Z) : PyError + list (string * Output) :=
  match agent_outputs with
  | [] => inr []
  | (k, v) :: rest =>
      match key_step k with
      | inl e => inl e
      | inr n =>
          match get_previous_outputs rest current_step with
          | inl e => inl e
          | inr previous => inr (if (n <? current_step)%Z then (k, v) :: previous else previous)
          end
      end
  end.

End Bus.

End AgentStateBus.

(** ** Further sample inputs *)

Module MoreSamples.

(** The [boundary_config.yaml] printed with the boundary controller in the
    refactoring plan: two entries and no [default]. *)
Definition plan_boundaries : gmap string BoundaryController.BoundaryConfig :=
  <["web_research" :=
      {| BoundaryController.max_actions := Some 4;
         BoundaryController.time_limit := Some 180;
         BoundaryController.success_criteria := Some ["找到产品信息"; "获取技术规格"];
         BoundaryController.stop_conditions := None;
         BoundaryController.autonomous_mode := Some true;
         BoundaryController.approval_threshold := None |}]>
  (<["image_generation" :=
      {| BoundaryController.max_actions := Some 1;
         BoundaryController.time_limit := Some 60;
         BoundaryController.success_criteria := Some ["图像生成完成"];
         BoundaryController.stop_conditions := None;
         BoundaryController.autonomous_mode := Some false;
         BoundaryController.approval_threshold := None |}]> ∅).

(** An entry for a further task type that gives no [autonomous_mode]. *)
Definition partial_entry : BoundaryController.BoundaryConfig :=
  {| BoundaryController.max_actions := Some 2;
     BoundaryController.time_limit := Some 90;
     BoundaryController.success_criteria := Some ["PDF生成完成"];
     BoundaryController.stop_conditions := None;
     BoundaryController.autonomous_mode := None;
     BoundaryController.approval_threshold := None |}.

End MoreSamples.

(** ** Invariants *)

Module Invariants.

(** The attempt count of a step id never exceeds the number of history
    entries recorded under it. *)
Definition attempts_within_history (self : ExecutionController.Controller) : Prop :=
  ∀ step_id,
    default 0 (ExecutionController.step_attempts self !! step_id)
    ≤ length (filter (fun e => ExecutionController.entry_step_id e = step_id)
                (ExecutionController.execution_history self)).

End Invariants.

(** * Properties *)

(** ** Python string primitives *)

(** [contains] is the substring test: the needle occurs in the text exactly
    when the text splits into a part before, the needle, and a part after. *)
Lemma append_cons (c : ascii) (s t : string) :
  (String c s ++ t)%string = String c (s ++ t)%string.
Proof. reflexivity. Qed.

Lemma prefix_split (needle hay : string) :
  String.prefix needle hay = true ↔ ∃ after, hay = (needle ++ after)%string.
Proof.
  revert hay. induction needle as [|c needle IH]; intros hay; simpl.
  - split; [eauto|]. intros _. by destruct hay.
  - destruct hay as [|d hay].
    + split; [discriminate|]. intros [after H]. discriminate.
    + simpl. destruct (Ascii.ascii_dec c d) as [->|Hne].
      * rewrite IH. split; intros [after H]; exists after;
          rewrite append_cons in *; congruence.
      * split; [discriminate|]. intros [after H]. rewrite append_cons in H. congruence.
Qed.

Lemma contains_split (needle hay : string) :
  PyStr.contains needle hay = true
  ↔ ∃ before after, hay = (before ++ needle ++ after)%string.
Proof.
  induction hay as [|d hay IH].
  - change (PyStr.contains needle "") with (String.prefix needle "" || false).
    rewrite orb_false_r, prefix_split. split.
    + intros [after H]. by exists EmptyString, after.
    + intros (before & after & H). exists after.
      destruct before; [done|by rewrite append_cons in H].
  - change (PyStr.contains needle (String d hay))
      with (String.prefix needle (String d hay) || PyStr.contains needle hay).
    rewrite orb_true_iff, prefix_split, IH. split.
    + intros [[after H]|(before & after & H)].
      * by exists EmptyString, after.
      * exists (String d before), after. by rewrite append_cons, H.
    + intros (before & after & H). destruct before as [|c before].
      * left. by exists after.
      * right. exists before, after. rewrite append_cons in H. congruence.
Qed.

Lemma any_in_true (words : list string) (text w : string) :
  In w words → PyStr.contains w text = true → PyStr.any_in words text = true.
Proof.
  intros Hin Hc. unfold PyStr.any_in. apply existsb_exists. exists w. split; assumption.
Qed.

Lemma any_in_inv (words : list string) (text : string) :
  PyStr.any_in words text = true →
  ∃ w, In w words ∧ PyStr.contains w text = true.
Proof. unfold PyStr.any_in. intros H. apply existsb_exists in H. exact H. Qed.

(** ** Validators *)



(** The web-search validator approves exactly on "completion signal and
    information indicator". *)
Lemma web_search_success_iff (step_info : StepInfo) (agent_response : string) :
  success (WebSearchValidator.validate_completion step_info agent_response)
  = WebSearchValidator.has_completion_signal agent_response
    && WebSearchValidator.has_useful_info agent_response.
Proof.
  unfold WebSearchValidator.validate_completion.
  destruct (_ && _); [reflexivity|].
  destruct (WebSearchValidator.is_generic _); reflexivity.
Qed.

(** C5, as stated, fails: a response below the minimum length is approved
    by [WebSearchValidator.validate_completion] when it carries a completion
    signal and an information indicator; the validator has no length test. *)
Lemma short_response_is_approved :
  String.length Samples.short_completed_response < Samples.min_response_length
  ∧ success (WebSearchValidator.validate_completion Samples.research_step
               Samples.short_completed_response) = true.
Proof. split; [vm_compute; lia | reflexivity]. Qed.

(** The test for deflecting answers is reached only after the approval test
    has failed. *)
Example deflecting_response_with_signal :
  WebSearchValidator.is_generic Samples.deflecting_completed_response = true
  ∧ success (WebSearchValidator.validate_completion Samples.research_step
               Samples.deflecting_completed_response) = true.
Proof. split; reflexivity. Qed.

(** C5, amended.  [WebSearchValidator.validate_completion] rejects every
    response that lacks a completion signal or lacks an information
    indicator, whatever its length and whatever else it contains, and asks
    for a retry with an enhanced instruction when such a response matches
    a deflecting pattern.  Length is never tested: a response with a
    completion signal and an information indicator that matches no
    deflecting pattern is approved. *)
Theorem web_search_rejection (step_info : StepInfo) (agent_response : string) :
  let result := WebSearchValidator.validate_completion step_info agent_response in
  (WebSearchValidator.has_completion_signal agent_response = false
   ∨ WebSearchValidator.has_useful_info agent_response = false →
   success result = false
   ∧ (WebSearchValidator.is_generic agent_response = true →
      action result = Some "retry_with_enhanced_instruction"))
  ∧ (WebSearchValidator.has_completion_signal agent_response = true →
     WebSearchValidator.has_useful_info agent_response = true →
     WebSearchValidator.is_generic agent_response = false →
     success result = true).
Proof.
  cbv zeta. split.
  - intros Hlack. unfold WebSearchValidator.validate_completion.
    assert (WebSearchValidator.has_completion_signal agent_response
            && WebSearchValidator.has_useful_info agent_response = false) as ->.
    { apply andb_false_iff. exact Hlack. }
    split.
    + destruct (WebSearchValidator.is_generic _); reflexivity.
    + intros ->. reflexivity.
  - intros Hs Hi _. rewrite web_search_success_iff, Hs, Hi. reflexivity.
Qed.

(** A deflecting answer that names the product but reports no completion is
    rejected with a retry; the short answer with signal and indicator is
    approved. *)
Lemma web_search_rejection_witness :
  (success (WebSearchValidator.validate_completion Samples.research_step
              "Let me help you 产品") = false
   ∧ action (WebSearchValidator.validate_completion Samples.research_step
               "Let me help you 产品") = Some "retry_with_enhanced_instruction")
  ∧ success (WebSearchValidator.validate_completion Samples.research_step
               Samples.short_completed_response) = true.
Proof.
  pose proof (web_search_rejection Samples.research_step "Let me help you 产品") as [H1 _].
  pose proof (web_search_rejection Samples.research_step
                Samples.short_completed_response) as [_ H2].
  split.
  - destruct H1 as [Hs Ha]; [left; reflexivity|].
    split; [exact Hs | apply Ha; reflexivity].
  - apply H2; reflexivity.
Defined.

(** ** Agent allocation *)

(** C7, as stated, fails: the instruction "Generate an image" contains none
    of the words of the special rule's outer test, no rule fires, every
    score is 0, and the allocator falls back to [coder_agent]. *)
Lemma english_image_instruction_goes_to_coder :
  SmartAgentAllocator.allocate_agent Samples.english_image_step = Some "coder_agent"
  ∧ SmartAgentAllocator.scores_of
      (SmartAgentAllocator.combined_text_of Samples.english_image_step)
    = [("web_surfer", 0); ("image_generator", 0); ("coder_agent", 0)].
Proof. split; reflexivity. Qed.

(** C7, amended.  When the lower-cased "title details" text of a step
    satisfies the first special rule (one of the rule's trigger words
    occurs, and so does 图像 or image), [allocate_agent] returns
    [image_generator]; neither the keyword scores nor the later rules for
    web and document words are consulted. *)
Theorem image_rule_overrides (step_info : StepInfo) :
  SmartAgentAllocator.image_rule (SmartAgentAllocator.combined_text_of step_info) = true →
  SmartAgentAllocator.allocate_agent step_info = Some "image_generator".
Proof.
  intros H. unfold SmartAgentAllocator.allocate_agent. cbv zeta. rewrite H. reflexivity.
Qed.

(** The step asks for an image and for markdown, html and pdf output: the
    document worker has the highest score and its rule would fire, yet the
    image worker is chosen. *)
Lemma image_rule_overrides_witness :
  SmartAgentAllocator.scores_of
    (SmartAgentAllocator.combined_text_of Samples.image_and_document_step)
  = [("web_surfer", 0); ("image_generator", 4); ("coder_agent", 10)]
  ∧ PyStr.any_in SmartAgentAllocator.coder_rule_words
      (SmartAgentAllocator.combined_text_of Samples.image_and_document_step) = true
  ∧ SmartAgentAllocator.allocate_agent Samples.image_and_document_step
    = Some "image_generator".
Proof.
  split; [reflexivity|]. split; [reflexivity|].
  apply (image_rule_overrides Samples.image_and_document_step). reflexivity.
Defined.

(** ** Boundary control *)

(** The shipped profile holds exactly its five entries. *)
Lemma task_boundaries_lookup (task_type : string) :
  BoundaryController.task_boundaries !! task_type
  = if decide (task_type = "web_research") then Some BoundaryController.web_research
    else if decide (task_type = "image_generation")
         then Some BoundaryController.image_generation
    else if decide (task_type = "document_creation")
         then Some BoundaryController.document_creation
    else if decide (task_type = "code_execution")
         then Some BoundaryController.code_execution
    else if decide (task_type = "default") then Some BoundaryController.default_boundary
    else None.
Proof.
  unfold BoundaryController.task_boundaries.
  repeat (case_decide; [subst; by simplify_map_eq | rewrite lookup_insert_ne by done]).
  apply lookup_empty.
Qed.

Lemma limits_for_fallback (config : gmap string BoundaryController.BoundaryConfig)
    (fallback : BoundaryController.BoundaryConfig) (task_type : string) :
  config !! "default" = Some fallback →
  config !! task_type = None →
  BoundaryController.limits_for config task_type
  = BoundaryController.settings_of fallback.
Proof.
  intros Hd Hn. unfold BoundaryController.limits_for.
  rewrite Hd, Hn. reflexivity.
Qed.

(** The settings returned by [setup_boundaries] are those of the lookup;
    the monitors table plays no part in them. *)
Lemma setup_boundaries_settings {S : Type} (identify : S → string) (index : S → nat)
    (self : BoundaryController.Controller) (step_info : S) :
  fst <$> BoundaryController.setup_boundaries identify index self step_info
  = BoundaryController.limits_for (BoundaryController.config self) (identify step_info).
Proof.
  unfold BoundaryController.setup_boundaries.
  destruct (BoundaryController.limits_for _ _); reflexivity.
Qed.

Lemma setup_boundaries_config {S : Type} (identify : S → string) (index : S → nat)
    (self self' : BoundaryController.Controller) (step_info : S)
    (settings : BoundaryController.BoundarySettings) :
  BoundaryController.setup_boundaries identify index self step_info = Some (settings, self') →
  BoundaryController.config self' = BoundaryController.config self.
Proof.
  unfold BoundaryController.setup_boundaries.
  destruct (BoundaryController.limits_for _ _); simpl; [|discriminate].
  intros [= _ <-]. reflexivity.
Qed.



(** ** Loop detection *)

Section FindRepeat.

Implicit Types (actions : list LoopDetector.Action) (seen : gmap string nat).

Lemma find_repeat_cons (threshold : nat) seen (a : LoopDetector.Action) actions :
  LoopDetector.find_repeat threshold seen (a :: actions)
  = let earlier := default 0 (seen !! LoopDetector.signature a) in
    if threshold <=? earlier then Some (LoopDetector.signature a)
    else LoopDetector.find_repeat threshold
           (<[LoopDetector.signature a := S earlier]> seen) actions.
Proof. reflexivity. Qed.

(** A signature that was seen before is reported as soon as it shows up. *)
Lemma find_repeat_seen actions seen (a : LoopDetector.Action) :
  a ∈ actions →
  1 ≤ default 0 (seen !! LoopDetector.signature a) →
  is_Some (LoopDetector.find_repeat 1 seen actions).
Proof.
  revert seen. induction actions as [|b rest IH]; intros seen Hin Hseen.
  - by apply elem_of_nil in Hin.
  - rewrite find_repeat_cons. cbv zeta.
    destruct (1 <=? default 0 (seen !! LoopDetector.signature b)) eqn:Hb; [by eexists|].
    apply Nat.leb_gt in Hb.
    apply elem_of_cons in Hin as [->|Hin]; [lia|].
    apply IH; [exact Hin|].
    destruct (decide (LoopDetector.signature b = LoopDetector.signature a)) as [Heq|Hne].
    + rewrite Heq, lookup_insert_eq. simpl. lia.
    + by rewrite lookup_insert_ne.
Qed.

(** Two positions with one signature make the scan stop. *)
Lemma find_repeat_duplicate actions seen (i j : nat) (a b : LoopDetector.Action) :
  i < j →
  actions !! i = Some a →
  actions !! j = Some b →
  LoopDetector.signature a = LoopDetector.signature b →
  is_Some (LoopDetector.find_repeat 1 seen actions).
Proof.
  revert seen i j. induction actions as [|c rest IH]; intros seen i j Hlt Hi Hj Hsig.
  - done.
  - rewrite find_repeat_cons. cbv zeta.
    destruct (1 <=? default 0 (seen !! LoopDetector.signature c)) eqn:Hc; [by eexists|].
    destruct j as [|j]; [lia|]. simpl in Hj.
    destruct i as [|i]; simpl in Hi.
    + injection Hi as ->.
      apply (find_repeat_seen rest _ b).
      * apply list_elem_of_lookup. eauto.
      * rewrite <- Hsig, lookup_insert_eq. simpl. lia.
    + apply (IH _ i j); [lia|assumption..].
Qed.

End FindRepeat.

(** C6.  With the default configuration (one repeat is a loop), the loop
    detector flags every action history of a step attempt in which one
    signature occurs at two positions. *)
Theorem repeated_signature_is_a_loop
    (actions : list LoopDetector.Action) (i j : nat) (a b : LoopDetector.Action) :
  i ≠ j →
  actions !! i = Some a →
  actions !! j = Some b →
  LoopDetector.signature a = LoopDetector.signature b →
  LoopDetector.loopDetected (LoopDetector.detect LoopDetector.default_config actions)
  = true.
Proof.
  intros Hne Hi Hj Hsig.
  assert (is_Some (LoopDetector.find_repeat 1 ∅ actions)) as Hrep.
  { destruct (decide (i < j)) as [Hlt|Hge].
    - by apply (find_repeat_duplicate actions ∅ i j a b).
    - apply (find_repeat_duplicate actions ∅ j i b a); [lia|done..]. }
  unfold LoopDetector.detect. simpl.
  rewrite (bool_decide_eq_true_2 _ Hrep). reflexivity.
Qed.

(** Clicking the same link twice, with a page visit in between. *)
Lemma repeated_signature_is_a_loop_witness :
  LoopDetector.loopDetected
    (LoopDetector.detect LoopDetector.default_config Samples.repeated_click)
  = true.
Proof.
  apply (repeated_signature_is_a_loop Samples.repeated_click 0 2
           (LoopDetector.mkAction "click:样片" true)
           (LoopDetector.mkAction "click:样片" false)).
  - lia.
  - reflexivity.
  - reflexivity.
  - reflexivity.
Defined.

(** ** Execution controller *)

Section ControllerProperties.

Variable is_repeated : ExecutionController.Controller → string → string → bool.
Variables document format other : StepInfo → string → ExecutionResult.

Let execute_step := ExecutionController.execute_step is_repeated document format other.
Let run_calls := ExecutionController.run_calls is_repeated document format other.
Let validate := ExecutionController.validate_completion document format other.

(** [execute_step], branch by branch. *)
Lemma execute_step_unfold (rq : ExecutionController.Request)
    (self : ExecutionController.Controller) :
  let step_info := ExecutionController.request_step rq in
  let agent_response := ExecutionController.request_response rq in
  let step_id := ExecutionController.step_id_of step_info in
  let validator := ExecutionController._get_validator step_info in
  execute_step (ExecutionController.request_time rq) step_info agent_response self
  = if is_repeated (ExecutionController.recorded self rq) step_id agent_response then
      (ExecutionController.repeated_result, ExecutionController.recorded self rq,
       [ExecutionController.CallRepeatCheck step_id])
    else
      (validate validator step_info agent_response,
       {| ExecutionController.execution_history :=
            ExecutionController.execution_history self ++ [ExecutionController.entry_of rq];
          ExecutionController.step_attempts :=
            <[step_id := default 0 (ExecutionController.step_attempts self !! step_id) + 1]>
              (ExecutionController.step_attempts self) |},
       [ExecutionController.CallRepeatCheck step_id;
        ExecutionController.CallValidator validator]).
Proof.
  destruct rq as [now step_info agent_response]. simpl.
  unfold execute_step, ExecutionController.execute_step, ExecutionController.bind,
    ExecutionController.record_history, ExecutionController.check_repeated. simpl.
  unfold ExecutionController.recorded, ExecutionController.entry_of. simpl.
  destruct (is_repeated _ _ _); reflexivity.
Qed.

Lemma execute_step_history (rq : ExecutionController.Request)
    (self : ExecutionController.Controller) :
  ExecutionController.execution_history
    (execute_step (ExecutionController.request_time rq)
       (ExecutionController.request_step rq)
       (ExecutionController.request_response rq) self).1.2
  = ExecutionController.execution_history self ++ [ExecutionController.entry_of rq].
Proof.
  pose proof (execute_step_unfold rq self) as H. cbv zeta in H. rewrite H.
  destruct (is_repeated _ _ _); reflexivity.
Qed.

Lemma run_calls_history (requests : list ExecutionController.Request)
    (self : ExecutionController.Controller) :
  ExecutionController.execution_history (run_calls requests self)
  = ExecutionController.execution_history self
    ++ map ExecutionController.entry_of requests.
Proof.
  revert self. induction requests as [|rq rest IH]; intros self.
  - simpl. by rewrite app_nil_r.
  - unfold run_calls, ExecutionController.run_calls in *. simpl.
    rewrite IH. fold execute_step. rewrite execute_step_history.
    by rewrite <- app_assoc.
Qed.

Lemma filter_entries_of (step_id : string) (requests : list ExecutionController.Request) :
  filter (fun e => ExecutionController.entry_step_id e = step_id)
         (map ExecutionController.entry_of requests)
  = map ExecutionController.entry_of
        (filter (fun rq => ExecutionController.step_id_of
                             (ExecutionController.request_step rq) = step_id)
                requests).
Proof.
  induction requests as [|rq rest IH]; [reflexivity|].
  simpl. rewrite !filter_cons. simpl.
  destruct (decide _); simpl; by rewrite IH.
Qed.

(** C2, amended.  [execute_step] never clears the execution history, neither
    when a new step starts nor between attempts: after any sequence of
    calls the history is the earlier history followed by one entry per
    call, each carrying the step id, agent and response of its call.  The
    responses are kept apart by this tag only: the entries recorded under a
    step id are the responses passed for that step id, in order.  The
    validator of a call is applied to the response of that call. *)
Theorem history_is_an_append_only_log
    (requests : list ExecutionController.Request)
    (self : ExecutionController.Controller)
    (rq : ExecutionController.Request) (step_id : string) :
  ExecutionController.execution_history (run_calls requests self)
  = ExecutionController.execution_history self
    ++ map ExecutionController.entry_of requests
  ∧ map ExecutionController.entry_response
        (filter (fun e => ExecutionController.entry_step_id e = step_id)
                (ExecutionController.execution_history
                   (run_calls requests ExecutionController.init)))
    = map ExecutionController.request_response
          (filter (fun rq => ExecutionController.step_id_of
                               (ExecutionController.request_step rq) = step_id)
                  requests)
  ∧ (execute_step (ExecutionController.request_time rq)
       (ExecutionController.request_step rq)
       (ExecutionController.request_response rq) self).1.1
    = if is_repeated (ExecutionController.recorded self rq)
           (ExecutionController.step_id_of (ExecutionController.request_step rq))
           (ExecutionController.request_response rq)
      then ExecutionController.repeated_result
      else validate (ExecutionController._get_validator
                       (ExecutionController.request_step rq))
             (ExecutionController.request_step rq)
             (ExecutionController.request_response rq).
Proof.
  split; [|split].
  - apply run_calls_history.
  - rewrite run_calls_history. simpl. rewrite filter_entries_of.
    rewrite map_map. reflexivity.
  - pose proof (execute_step_unfold rq self) as H. cbv zeta in H. rewrite H.
    destruct (is_repeated _ _ _); reflexivity.
Qed.

(** C4, amended.  [execute_step] has no guard for a step that was already
    validated: every call appends one entry to the execution history.  A
    call that the repetition test flags returns the not-successful result
    with action [continue_to_next], runs no validator and leaves the attempt
    counts alone; any other call returns the validator's result and raises
    the attempt count of its step id by one. *)
Theorem execute_step_always_records
    (rq : ExecutionController.Request) (self : ExecutionController.Controller) :
  let step_info := ExecutionController.request_step rq in
  let agent_response := ExecutionController.request_response rq in
  let step_id := ExecutionController.step_id_of step_info in
  let outcome :=
    execute_step (ExecutionController.request_time rq) step_info agent_response self in
  ExecutionController.execution_history outcome.1.2
  = ExecutionController.execution_history self ++ [ExecutionController.entry_of rq]
  ∧ if is_repeated (ExecutionController.recorded self rq) step_id agent_response then
      outcome.1.1 = ExecutionController.repeated_result
      ∧ ExecutionController.step_attempts outcome.1.2
        = ExecutionController.step_attempts self
      ∧ outcome.2 = [ExecutionController.CallRepeatCheck step_id]
    else
      outcome.1.1 = validate (ExecutionController._get_validator step_info)
                      step_info agent_response
      ∧ ExecutionController.step_attempts outcome.1.2
        = <[step_id := default 0 (ExecutionController.step_attempts self !! step_id) + 1]>
            (ExecutionController.step_attempts self).
Proof.
  cbv zeta. split; [apply execute_step_history|].
  pose proof (execute_step_unfold rq self) as H. cbv zeta in H. rewrite H.
  destruct (is_repeated _ _ _); simpl; auto.
Qed.

End ControllerProperties.

(** C2, as stated, fails: the history is not cleared when the image step
    starts; after the research step and the image step it holds both
    responses, and the repetition test of the image step is run on a
    history that begins with the research report. *)
Lemma history_keeps_earlier_steps :
  let self :=
    ExecutionController.run_calls ExecutionController.is_repeated_by_history
      Samples.unlisted_validator Samples.unlisted_validator Samples.unlisted_validator
      [Samples.research_request 0; Samples.image_request 1] ExecutionController.init in
  map ExecutionController.entry_response (ExecutionController.execution_history self)
  = [Samples.research_report; "图像已成功生成：camera_360.png"]
  ∧ map ExecutionController.entry_step_id (ExecutionController.execution_history self)
    = ["web_surfer_访问参考网站"; "image_generator_生成产品图像"].
Proof. split; reflexivity. Qed.

(** C4, as stated, fails: the research report is validated by the first
    call; a second call with the same step and response returns a different
    result (not successful, [continue_to_next]) and leaves a second entry
    in the history. *)
Lemma second_call_is_not_a_no_op :
  let execute_step :=
    ExecutionController.execute_step ExecutionController.is_repeated_by_history
      Samples.unlisted_validator Samples.unlisted_validator Samples.unlisted_validator in
  let first := execute_step 0 Samples.research_step Samples.research_report
                 ExecutionController.init in
  let second := execute_step 1 Samples.research_step Samples.research_report first.1.2 in
  success first.1.1 = true
  ∧ second.1.1 = ExecutionController.repeated_result
  ∧ second.1.1 ≠ first.1.1
  ∧ length (ExecutionController.execution_history first.1.2) = 1
  ∧ length (ExecutionController.execution_history second.1.2) = 2
  ∧ second.1.2 ≠ first.1.2.
Proof.
  cbv zeta. repeat split; try reflexivity.
  - intros H. apply (f_equal success) in H. vm_compute in H. discriminate.
  - intros H. apply (f_equal (fun c => length (ExecutionController.execution_history c))) in H.
    vm_compute in H. discriminate.
Qed.

(** ** Order of loop detection and validation *)

Section ManagerProperties.

Context {StepInfoT ContextData ExecutionInfo : Type}.
Variable initialize : StepInfoT → ExecutionInfo.
Variable get_agent_response : StepInfoT → ContextData → string.
Variable validation_engine : string → StepInfoT → StepExecutionManager.ValidationResult.
Variable loop_detector : list string → StepInfoT → StepExecutionManager.LoopDetectionResult.
Variable transition : string → string → list string → option string.
Variable handle_loop :
  StepExecutionManager.LoopDetectionResult → ExecutionInfo → StepExecutionManager.ManagerResult.
Variable handle_error : StepInfoT → StepExecutionManager.ManagerResult.

Let manager_step :=
  StepExecutionManager.execute_step initialize get_agent_response validation_engine
    loop_detector transition handle_loop handle_error.

(** The manager asks the validation engine first and the loop detector
    second, on every run. *)
Lemma manager_calls_validation_first (step_info : StepInfoT) (context : ContextData) :
  ∃ rest,
    (manager_step step_info context).2
    = [StepExecutionManager.CallInitialize; StepExecutionManager.CallAgent;
       StepExecutionManager.CallValidationEngine; StepExecutionManager.CallLoopDetector]
      ++ rest.
Proof.
  unfold manager_step, StepExecutionManager.execute_step.
  destruct (StepExecutionManager.completed _).
  - destruct (transition _ _ _); eexists; reflexivity.
  - destruct (StepExecutionManager.detected _); [eexists; reflexivity|].
    exists []. by rewrite app_nil_r.
Qed.

(** Approval by the validation engine wins over the loop detector. *)
Lemma manager_approval_wins (step_info : StepInfoT) (context : ContextData) :
  let agent_response := get_agent_response step_info context in
  StepExecutionManager.completed (validation_engine agent_response step_info) = true →
  is_Some (transition "in_progress" "completed"
             (StepExecutionManager.evidence (validation_engine agent_response step_info))) →
  (manager_step step_info context).1
  = {| StepExecutionManager.manager_success := true;
       StepExecutionManager.next_action := "advance" |}.
Proof.
  cbv zeta. intros Hc [new_state Ht].
  unfold manager_step, StepExecutionManager.execute_step.
  rewrite Hc, Ht. reflexivity.
Qed.

(** The loop handler runs only for a response that the validation engine
    did not approve. *)
Lemma manager_loop_handler_after_rejection (step_info : StepInfoT) (context : ContextData) :
  let agent_response := get_agent_response step_info context in
  StepExecutionManager.CallHandleLoop ∈ (manager_step step_info context).2 →
  StepExecutionManager.completed (validation_engine agent_response step_info) = false
  ∧ StepExecutionManager.detected (loop_detector [agent_response] step_info) = true.
Proof.
  cbv zeta. unfold manager_step, StepExecutionManager.execute_step.
  destruct (StepExecutionManager.completed _).
  - destruct (transition _ _ _); simpl; intros H;
      repeat (apply elem_of_cons in H as [H|H]; [discriminate|]);
      by apply elem_of_nil in H.
  - destruct (StepExecutionManager.detected _); [done|].
    simpl. intros H.
    repeat (apply elem_of_cons in H as [H|H]; [discriminate|]).
    by apply elem_of_nil in H.
Qed.

End ManagerProperties.




(** ** The step state machine *)

Section RunStepProperties.

Variable validate : nat → string → Orchestrator.Validation.
Variable loop_config : LoopDetector.Config.
Variable max_attempts : nat.
Variable exhausted_policy : Orchestrator.NextAction.

Let runStep := Orchestrator.runStep validate loop_config max_attempts exhausted_policy.
Let run := Orchestrator.run validate loop_config max_attempts exhausted_policy.
Let evaluate := Orchestrator.evaluate validate loop_config.

Implicit Types (st : Orchestrator.ExecutionSession) (inv : Orchestrator.Invocation).

Let step_case := Orchestrator.step_case validate loop_config exhausted_policy.

Lemma runStep_cases inv st : step_case inv st (runStep inv st).
Proof.
  unfold runStep, Orchestrator.runStep. cbv zeta.
  destruct (Orchestrator.given_step_idx inv =? Orchestrator.current_step_idx st) eqn:Hg;
    simpl.
  2: { apply Nat.eqb_neq in Hg. by constructor. }
  apply Nat.eqb_eq in Hg.
  case_bool_decide as Hf; [by constructor|].
  destruct (Orchestrator.evaluate _ _ _ _) as [t ev|why] eqn:He.
  - by apply Orchestrator.case_complete.
  - unfold Orchestrator.retry_or_fail. cbv zeta.
    destruct (_ <? _); eapply Orchestrator.case_reject; eauto.
Qed.

Lemma status_of_store st (i j : nat) (r : Orchestrator.StepExecutionRecord) :
  Orchestrator.status_of (Orchestrator.store st i r) j
  = if decide (i = j) then Orchestrator.status r else Orchestrator.status_of st j.
Proof.
  unfold Orchestrator.status_of, Orchestrator.record_of, Orchestrator.store. simpl.
  rewrite lookup_insert. by case_decide.
Qed.

Lemma status_of_advance st (r : Orchestrator.StepExecutionRecord)
    (t : Orchestrator.CompletionTier) (ev summary : string) (j : nat) :
  Orchestrator.status_of (Orchestrator.advance st r t ev summary) j
  = if decide (Orchestrator.current_step_idx st = j) then Orchestrator.completed
    else Orchestrator.status_of st j.
Proof.
  unfold Orchestrator.status_of, Orchestrator.record_of, Orchestrator.advance. simpl.
  rewrite lookup_insert. by case_decide.
Qed.

Lemma completed_below_init : Orchestrator.completed_below Orchestrator.init.
Proof.
  intros i. unfold Orchestrator.status_of, Orchestrator.record_of. simpl.
  rewrite lookup_empty. simpl. split; [discriminate|lia].
Qed.

Lemma completed_below_step inv st :
  Orchestrator.completed_below st → Orchestrator.completed_below (runStep inv st).2.
Proof.
  intros Hinv. destruct (runStep_cases inv st) as [Hg|Hg Hf|t ev Hg He|why a r Hg He Hr];
    simpl; try exact Hinv.
  - intros i. rewrite status_of_advance. simpl. case_decide as Hi.
    + subst i. split; [lia|done].
    + rewrite (Hinv i). lia.
  - intros i. rewrite status_of_store. simpl. case_decide as Hi.
    + subst i. split; [done|lia].
    + apply Hinv.
Qed.

Lemma completed_below_run (trace : list Orchestrator.Invocation) st :
  Orchestrator.completed_below st → Orchestrator.completed_below (run trace st).
Proof.
  revert st. induction trace as [|inv rest IH]; intros st Hinv; [exact Hinv|].
  apply IH. by apply completed_below_step.
Qed.

(** One call moves the index by zero or by one, and it moves it only through
    [advance]. *)
Lemma runStep_index inv st :
  Orchestrator.current_step_idx (runStep inv st).2 = Orchestrator.current_step_idx st
  ∨ (Orchestrator.given_step_idx inv = Orchestrator.current_step_idx st
     ∧ ∃ t ev,
         evaluate (Orchestrator.current_step_idx st) (Orchestrator.dispatched inv)
         = Orchestrator.Complete t ev
         ∧ (runStep inv st).2
           = Orchestrator.advance st (Orchestrator.working_record st inv) t ev
               (Orchestrator.finalResponse (Orchestrator.dispatched inv))).
Proof.
  destruct (runStep_cases inv st) as [Hg|Hg Hf|t ev Hg He|why a r Hg He Hr]; simpl; eauto.
  right. eauto.
Qed.

Lemma run_cons inv (trace : list Orchestrator.Invocation) st :
  run (inv :: trace) st = run trace (runStep inv st).2.
Proof. reflexivity. Qed.

Lemma run_app (trace more : list Orchestrator.Invocation) st :
  run (trace ++ more) st = run more (run trace st).
Proof. apply fold_left_app. Qed.

Lemma run_index_monotone (trace : list Orchestrator.Invocation) st :
  Orchestrator.current_step_idx st ≤ Orchestrator.current_step_idx (run trace st).
Proof.
  revert st. induction trace as [|inv rest IH]; intros st; [done|].
  rewrite run_cons. etrans; [|apply IH].
  destruct (runStep_index inv st) as [->|(_ & t & ev & _ & ->)]; simpl; lia.
Qed.

(** C1.  Along every execution trace from the initial state,
    [current_step_idx] never decreases; one call of [runStep] leaves it
    alone or adds exactly one; it moves only through [advance], the single
    place that increments it; it is incremented exactly when a step passes
    to [completed], and that step is the one at the index before the call;
    so at every moment the completed steps are exactly the indices below
    [current_step_idx], none skipped. *)
Theorem current_step_idx_advances_by_one
    (trace more : list Orchestrator.Invocation) inv :
  let st := run trace Orchestrator.init in
  let st' := (runStep inv st).2 in
  Orchestrator.current_step_idx st
  ≤ Orchestrator.current_step_idx (run more st)
  ∧ (Orchestrator.current_step_idx st' = Orchestrator.current_step_idx st
     ∨ Orchestrator.current_step_idx st' = S (Orchestrator.current_step_idx st))
  ∧ (Orchestrator.current_step_idx st' ≠ Orchestrator.current_step_idx st →
     ∃ t ev, st' = Orchestrator.advance st (Orchestrator.working_record st inv) t ev
                     (Orchestrator.finalResponse (Orchestrator.dispatched inv)))
  ∧ (∀ i, Orchestrator.status_of st i ≠ Orchestrator.completed →
          Orchestrator.status_of st' i = Orchestrator.completed →
          i = Orchestrator.current_step_idx st
          ∧ Orchestrator.current_step_idx st' = S i)
  ∧ (Orchestrator.current_step_idx st' = S (Orchestrator.current_step_idx st) →
     Orchestrator.status_of st (Orchestrator.current_step_idx st) ≠ Orchestrator.completed
     ∧ Orchestrator.status_of st' (Orchestrator.current_step_idx st)
       = Orchestrator.completed)
  ∧ (∀ i, Orchestrator.status_of st' i = Orchestrator.completed
          ↔ i < Orchestrator.current_step_idx st').
Proof.
  cbv zeta.
  set (st := run trace Orchestrator.init).
  assert (Orchestrator.completed_below st) as Hst
    by (apply completed_below_run, completed_below_init).
  assert (Orchestrator.completed_below (runStep inv st).2) as Hst'
    by (by apply completed_below_step).
  pose proof (runStep_index inv st) as Hidx.
  assert (∀ i, Orchestrator.status_of st i ≠ Orchestrator.completed →
               Orchestrator.status_of (runStep inv st).2 i = Orchestrator.completed →
               i = Orchestrator.current_step_idx st
               ∧ Orchestrator.current_step_idx (runStep inv st).2 = S i) as Htransition.
  { intros i Hbefore Hafter. apply Hst' in Hafter.
    assert (¬ i < Orchestrator.current_step_idx st) by (by rewrite <- (Hst i)).
    destruct Hidx as [Heq|(_ & t & ev & _ & Heq)]; rewrite Heq in *; simpl in *; lia. }
  split; [apply run_index_monotone|].
  split.
  { destruct Hidx as [->|(_ & t & ev & _ & ->)]; simpl; auto. }
  split.
  { intros Hne. destruct Hidx as [Heq|(_ & t & ev & _ & ->)]; [done|eauto]. }
  split; [exact Htransition|].
  split; [|exact Hst'].
  intros Hnext. split.
  - rewrite (Hst _). lia.
  - apply Hst'. lia.
Qed.

(** C8, amended.  The status of a step becomes [completed] only in a call of
    [runStep] made for the current step, and only in one of two ways: the
    validator explicitly approves the response of that call, with no loop
    detected and no boundary exceeded; or a detected loop or an exceeded
    boundary forces completion because useful content was gathered, and
    then the record is annotated as success via fallback.  A rejection
    never completes a step. *)
Theorem completed_by_approval_or_forced inv st (i : nat) :
  let st' := (runStep inv st).2 in
  let d := Orchestrator.dispatched inv in
  let forced :=
    LoopDetector.loopDetected (LoopDetector.detect loop_config (Orchestrator.actionEvents d))
    || Orchestrator.boundary_exceeded d in
  Orchestrator.status_of st i ≠ Orchestrator.completed →
  Orchestrator.status_of st' i = Orchestrator.completed →
  i = Orchestrator.current_step_idx st
  ∧ Orchestrator.given_step_idx inv = i
  ∧ ((forced = false
      ∧ Orchestrator.approved (validate i (Orchestrator.finalResponse d)) = true)
     ∨ (forced = true
        ∧ LoopDetector.recommend (Orchestrator.actionEvents d)
          = LoopDetector.force_complete_with_partial_evidence
        ∧ Orchestrator.tier (Orchestrator.record_of st' i)
          = Some Orchestrator.success_via_fallback)).
Proof.
  cbv zeta. intros Hbefore Hafter.
  destruct (runStep_cases inv st) as [Hg|Hg Hf|t ev Hg He|why a r Hg He Hr];
    simpl in Hafter; try done.
  - rewrite status_of_advance in Hafter. case_decide as Hi; [subst i|done].
    split; [done|]. split; [done|].
    unfold evaluate, Orchestrator.evaluate in He. cbv zeta in He.
    destruct (_ || _) eqn:Hforced.
    + right. split; [done|].
      destruct (LoopDetector.recommend _) eqn:Hrec; [|discriminate].
      split; [done|]. injection He as <- <-.
      unfold Orchestrator.record_of, Orchestrator.advance. simpl.
      by rewrite lookup_insert_eq.
    + left. split; [done|].
      by destruct (Orchestrator.approved _).
  - rewrite status_of_store in Hafter. case_decide as Hi; [subst i|]; done.
Qed.

End RunStepProperties.

(** C1 on the three-step scenario: a deflection is retried, the report
    advances to index 1, the forced completion advances to index 2. *)
Example scenario_indices :
  let after (n : nat) :=
    Orchestrator.run Samples.web_validation LoopDetector.default_config 3
      Orchestrator.EscalateToHuman (take n Samples.scenario) Orchestrator.init in
  map (fun n => Orchestrator.current_step_idx (after n)) [0; 1; 2; 3] = [0; 0; 1; 2]
  ∧ Orchestrator.status_of (after 1) 0 = Orchestrator.in_progress
  ∧ Orchestrator.attempt_count (Orchestrator.record_of (after 1) 0) = 1
  ∧ Orchestrator.tier (Orchestrator.record_of (after 3) 1)
    = Some Orchestrator.success_via_fallback.
Proof. cbv zeta. repeat split; vm_compute; reflexivity. Qed.

(** C8, as stated, fails: with a validator that approves nothing, a worker
    that repeats an action after gathering content gets its step completed
    by forced completion. *)
Lemma forced_completion_without_approval :
  let outcome :=
    Orchestrator.runStep Samples.never_approves LoopDetector.default_config 3
      Orchestrator.EscalateToHuman
      (Orchestrator.mkInvocation 0 Samples.looping_dispatch) Orchestrator.init in
  Orchestrator.approved
    (Samples.never_approves 0 (Orchestrator.finalResponse Samples.looping_dispatch)) = false
  ∧ Orchestrator.status_of Orchestrator.init 0 = Orchestrator.not_started
  ∧ outcome.1 = Orchestrator.Advance
  ∧ Orchestrator.status_of outcome.2 0 = Orchestrator.completed
  ∧ Orchestrator.current_step_idx outcome.2 = 1.
Proof. cbv zeta. repeat split; vm_compute; reflexivity. Qed.

(** The forced completion of the looping step in the scenario. *)
Lemma completed_by_approval_or_forced_witness :
  let st := Orchestrator.run Samples.web_validation LoopDetector.default_config 3
              Orchestrator.EscalateToHuman (take 2 Samples.scenario) Orchestrator.init in
  let st' := (Orchestrator.runStep Samples.web_validation LoopDetector.default_config 3
                Orchestrator.EscalateToHuman
                (Orchestrator.mkInvocation 1 Samples.looping_dispatch) st).2 in
  1 = Orchestrator.current_step_idx st
  ∧ Orchestrator.tier (Orchestrator.record_of st' 1)
    = Some Orchestrator.success_via_fallback.
Proof.
  cbv zeta.
  destruct (completed_by_approval_or_forced Samples.web_validation
              LoopDetector.default_config 3 Orchestrator.EscalateToHuman
              (Orchestrator.mkInvocation 1 Samples.looping_dispatch)
              (Orchestrator.run Samples.web_validation LoopDetector.default_config 3
                 Orchestrator.EscalateToHuman (take 2 Samples.scenario) Orchestrator.init)
              1) as (Hidx & _ & [[Hforced _]|(_ & _ & Htier)]).
  - vm_compute. discriminate.
  - vm_compute. reflexivity.
  - vm_compute in Hforced. discriminate.
  - split; [exact Hidx | exact Htier].
Defined.

(** The report for the first step of the scenario moves the index from 0 to
    1 and completes step 0. *)
Lemma current_step_idx_advances_by_one_witness :
  let st := Orchestrator.run Samples.web_validation LoopDetector.default_config 3
              Orchestrator.EscalateToHuman (take 1 Samples.scenario) Orchestrator.init in
  let st' := (Orchestrator.runStep Samples.web_validation LoopDetector.default_config 3
                Orchestrator.EscalateToHuman
                (Orchestrator.mkInvocation 0 Samples.reporting_dispatch) st).2 in
  Orchestrator.current_step_idx st = 0
  ∧ Orchestrator.current_step_idx st' = 1
  ∧ Orchestrator.status_of st' 0 = Orchestrator.completed.
Proof.
  cbv zeta.
  destruct (current_step_idx_advances_by_one Samples.web_validation
              LoopDetector.default_config 3 Orchestrator.EscalateToHuman
              (take 1 Samples.scenario) []
              (Orchestrator.mkInvocation 0 Samples.reporting_dispatch))
    as (_ & _ & _ & _ & Hnext & _).
  destruct Hnext as [_ Hcompleted]; [vm_compute; reflexivity|].
  split; [vm_compute; reflexivity|].
  split; [vm_compute; reflexivity|exact Hcompleted].
Defined.

(** ** The worker-side loop guard *)

(** When the loop guard of the web surfer fires, the message it yields in
    place of the action reports a visit and names the product, which is the
    pattern the orchestrator's completion test accepts. *)
Lemma loop_guard_message_is_accepted (name tool_call_name tool_call_msg : string) :
  ∃ response,
    WebSurfer.before_action name (fun _ _ => true) false "" tool_call_name tool_call_msg
    = Some response
    ∧ WebSurfer.actions_and_product (WebSurfer.content response) = true
    ∧ PyStr.any_in WebSurfer.websurfer_recovery_signals (WebSurfer.content response)
      = true.
Proof. eexists. split; [reflexivity|]. split; vm_compute; reflexivity. Qed.

(** * Further properties of the listings *)

(** ** Python string primitives *)

Lemma string_app_assoc (a b c : string) :
  ((a ++ b) ++ c)%string = (a ++ b ++ c)%string.
Proof.
  induction a as [|x a IH]; [reflexivity|].
  by rewrite !append_cons, IH.
Qed.

(** A needle found in a text is found in every text around it. *)
Lemma contains_embed (w r before after : string) :
  PyStr.contains w r = true →
  PyStr.contains w (before ++ r ++ after)%string = true.
Proof.
  rewrite !contains_split. intros (b & a & ->).
  exists (before ++ b)%string, (a ++ after)%string.
  by rewrite !string_app_assoc.
Qed.

Lemma any_in_embed (words : list string) (r before after : string) :
  PyStr.any_in words r = true →
  PyStr.any_in words (before ++ r ++ after)%string = true.
Proof.
  intros H. apply any_in_inv in H as (w & Hin & Hc).
  eapply any_in_true; [exact Hin|]. by apply contains_embed.
Qed.

Lemma has_upper_app (a b : string) :
  PyText.has_upper (a ++ b) = PyText.has_upper a || PyText.has_upper b.
Proof.
  induction a as [|x a IH]; [reflexivity|].
  rewrite append_cons. simpl. rewrite IH. by rewrite orb_assoc.
Qed.

Lemma lower_ascii_not_upper (c : ascii) :
  let n := Ascii.nat_of_ascii (PyStr.lower_ascii c) in
  (65 <=? n) && (n <=? 90) = false.
Proof.
  destruct c as [[|] [|] [|] [|] [|] [|] [|] [|]]; reflexivity.
Qed.

Lemma has_upper_lower (s : string) : PyText.has_upper (PyStr.lower s) = false.
Proof.
  induction s as [|c s IH]; [reflexivity|].
  simpl. rewrite IH, orb_false_r. apply lower_ascii_not_upper.
Qed.

(** A word with a capital does not occur in a text without capitals. *)
Lemma contains_upper_free (w text : string) :
  PyText.has_upper w = true → PyText.has_upper text = false →
  PyStr.contains w text = false.
Proof.
  intros Hw Ht. destruct (PyStr.contains w text) eqn:Hc; [|reflexivity].
  apply contains_split in Hc as (b & a & ->).
  rewrite !has_upper_app, Hw, orb_true_r in Ht. simpl in Ht. discriminate.
Qed.

(** ** Agent allocation *)

(** X2.  The text that the allocator searches is lower-cased, so a table
    entry that contains an ASCII capital can never match it: the trigger
    and keyword [CG] and the task type [AI绘图] are dead entries. *)
Theorem capital_entries_never_match (step_info : StepInfo) (word : string) :
  PyText.has_upper word = true →
  PyStr.contains word (SmartAgentAllocator.combined_text_of step_info) = false.
Proof.
  intros Hw. apply contains_upper_free; [exact Hw|].
  unfold SmartAgentAllocator.combined_text_of.
  rewrite !has_upper_app, !has_upper_lower. reflexivity.
Qed.

Lemma capital_entries_never_match_witness :
  PyStr.contains "CG"
    (SmartAgentAllocator.combined_text_of
       {| agent_name := ""; title := "CG"; details := "AI绘图" |}) = false
  ∧ PyStr.contains "AI绘图"
      (SmartAgentAllocator.combined_text_of
         {| agent_name := ""; title := "CG"; details := "AI绘图" |}) = false.
Proof.
  split; apply capital_entries_never_match; reflexivity.
Defined.

(** ** Validators and the execution controller *)

(** X4.  Neither validator has a pattern that revokes approval: a response
    that is approved stays approved when any text is put before and after
    it, for instance an error report. *)
Theorem approval_survives_added_text
    (step_info : StepInfo) (agent_response before after : string) :
  (success (WebSearchValidator.validate_completion step_info agent_response) = true →
   success (WebSearchValidator.validate_completion step_info
              (before ++ agent_response ++ after)%string) = true)
  ∧ (success (ImageGenerationValidator.validate_completion step_info agent_response)
     = true →
     success (ImageGenerationValidator.validate_completion step_info
                (before ++ agent_response ++ after)%string) = true).
Proof.
  split.
  - rewrite !web_search_success_iff, !andb_true_iff. intros [Hs Hi].
    split; by apply any_in_embed.
  - unfold ImageGenerationValidator.validate_completion.
    destruct (ImageGenerationValidator.has_completion_signal agent_response
              || ImageGenerationValidator.has_image_reference agent_response) eqn:H;
      [|discriminate].
    intros _. apply orb_true_iff in H as [H|H].
    + unfold ImageGenerationValidator.has_completion_signal in *.
      rewrite (any_in_embed _ _ before after H). reflexivity.
    + unfold ImageGenerationValidator.has_image_reference in *.
      rewrite (any_in_embed _ _ before after H), orb_true_r. reflexivity.
Qed.

Lemma approval_survives_added_text_witness :
  success (WebSearchValidator.validate_completion Samples.research_step
             ("❌ 任务失败：页面无法访问。" ++ Samples.research_report ++ " 请重试。")%string)
  = true
  ∧ success (ImageGenerationValidator.validate_completion Samples.image_step
               ("生成失败，没有 " ++ "camera_360.png" ++ " 文件")%string) = true.
Proof.
  destruct (approval_survives_added_text Samples.research_step Samples.research_report
              "❌ 任务失败：页面无法访问。" " 请重试。") as [Hweb _].
  destruct (approval_survives_added_text Samples.image_step "camera_360.png"
              "生成失败，没有 " " 文件") as [_ Himage].
  split; [apply Hweb|apply Himage]; reflexivity.
Defined.

Section ControllerComposition.

Variable is_repeated : ExecutionController.Controller → string → string → bool.
Variables document format other : StepInfo → string → ExecutionResult.

Let execute_step := ExecutionController.execute_step is_repeated document format other.
Let run_calls := ExecutionController.run_calls is_repeated document format other.

Lemma attempts_within_history_step (rq : ExecutionController.Request)
    (self : ExecutionController.Controller) :
  Invariants.attempts_within_history self →
  Invariants.attempts_within_history
    (execute_step (ExecutionController.request_time rq)
       (ExecutionController.request_step rq)
       (ExecutionController.request_response rq) self).1.2.
Proof.
  intros Hinv step_id.
  pose proof (execute_step_unfold is_repeated document format other rq self) as H.
  cbv zeta in H. unfold execute_step. rewrite H.
  specialize (Hinv step_id).
  destruct (is_repeated _ _ _); simpl.
  - rewrite filter_app, length_app. lia.
  - rewrite filter_app, length_app, lookup_insert.
    case_decide as Hid; simpl.
    + subst step_id. rewrite filter_cons_True by reflexivity. simpl. lia.
    + lia.
Qed.

(** X7.  In every controller reached from a fresh one, the attempt count of
    a step id is at most the number of history entries recorded under that
    id: attempts are counted only for recorded calls, and a call stopped by
    the repetition test is recorded without being counted. *)
Theorem attempts_never_exceed_history
    (requests : list ExecutionController.Request) (step_id : string) :
  let self := run_calls requests ExecutionController.init in
  default 0 (ExecutionController.step_attempts self !! step_id)
  ≤ length (filter (fun e => ExecutionController.entry_step_id e = step_id)
              (ExecutionController.execution_history self)).
Proof.
  cbv zeta.
  assert (∀ self, Invariants.attempts_within_history self →
                  Invariants.attempts_within_history (run_calls requests self)) as Hrun.
  { induction requests as [|rq rest IH]; intros self Hinv; [exact Hinv|].
    apply IH. by apply attempts_within_history_step. }
  apply Hrun. intros sid. simpl. rewrite lookup_empty. simpl. lia.
Qed.

End ControllerComposition.

(** ** Boundary control *)

(** X8.  A profile without a [default] entry is unusable: the fallback
    argument [self.config['default']] is evaluated before the lookup, so the
    limits lookup raises for every task type, also for a task type that has
    an entry of its own, and [setup_boundaries] registers no monitor. *)
Theorem profile_without_default_always_raises
    (config : gmap string BoundaryController.BoundaryConfig) (task_type : string)
    (S : Type) (identify : S → string) (index : S → nat)
    (monitors : gmap nat BoundaryController.BoundarySettings) (step_info : S) :
  config !! "default" = None →
  BoundaryController.limits_for config task_type = None
  ∧ BoundaryController.setup_boundaries identify index
      {| BoundaryController.config := config;
         BoundaryController.monitors := monitors |} step_info = None.
Proof.
  intros Hd. unfold BoundaryController.setup_boundaries, BoundaryController.limits_for.
  simpl. rewrite Hd. split; reflexivity.
Qed.

(** The profile printed next to the controller has entries for web research
    and image generation and no default: the lookup for web research
    raises. *)
Lemma profile_without_default_always_raises_witness :
  is_Some (MoreSamples.plan_boundaries !! "web_research")
  ∧ BoundaryController.limits_for MoreSamples.plan_boundaries "web_research" = None.
Proof.
  split; [eexists; reflexivity|].
  apply (profile_without_default_always_raises MoreSamples.plan_boundaries
           "web_research" nat (fun _ => "web_research") id ∅ 0).
  reflexivity.
Defined.

(** X9.  The fallback is per entry, not per key.  When the task type has an
    entry, the limits are built from that entry alone: a missing
    [max_actions], [time_limit] or [success_criteria] raises although the
    default entry has them, and a missing [autonomous_mode] is read as
    [False] whatever the default entry says. *)
Theorem entry_is_not_completed_from_default
    (config : gmap string BoundaryController.BoundaryConfig)
    (fallback entry : BoundaryController.BoundaryConfig) (task_type : string) :
  config !! "default" = Some fallback →
  config !! task_type = Some entry →
  BoundaryController.limits_for config task_type = BoundaryController.settings_of entry
  ∧ (BoundaryController.max_actions entry = None
     ∨ BoundaryController.time_limit entry = None
     ∨ BoundaryController.success_criteria entry = None →
     BoundaryController.limits_for config task_type = None)
  ∧ (BoundaryController.autonomous_mode entry = None →
     ∀ settings,
       BoundaryController.limits_for config task_type = Some settings →
       BoundaryController.settings_autonomous_mode settings = false).
Proof.
  intros Hd He.
  assert (BoundaryController.limits_for config task_type
          = BoundaryController.settings_of entry) as Heq.
  { unfold BoundaryController.limits_for. rewrite Hd, He. reflexivity. }
  split; [exact Heq|]. rewrite Heq. unfold BoundaryController.settings_of. split.
  - intros [H|[H|H]]; rewrite H; simpl; [reflexivity| |].
    + by destruct (BoundaryController.max_actions entry).
    + destruct (BoundaryController.max_actions entry); [|reflexivity].
      by destruct (BoundaryController.time_limit entry).
  - intros Ha settings.
    destruct (BoundaryController.max_actions entry); [|discriminate].
    destruct (BoundaryController.time_limit entry); [|discriminate].
    destruct (BoundaryController.success_criteria entry); [|discriminate].
    simpl. intros [= <-]. simpl. by rewrite Ha.
Qed.

Lemma entry_is_not_completed_from_default_witness :
  BoundaryController.limits_for
    (<["pdf_export" := MoreSamples.partial_entry]> BoundaryController.task_boundaries)
    "pdf_export"
  = Some {| BoundaryController.settings_max_actions := 2;
            BoundaryController.settings_time_limit := 90;
            BoundaryController.settings_success_criteria := ["PDF生成完成"];
            BoundaryController.settings_autonomous_mode := false |}.
Proof.
  destruct (entry_is_not_completed_from_default
              (<["pdf_export" := MoreSamples.partial_entry]>
                 BoundaryController.task_boundaries)
              BoundaryController.default_boundary MoreSamples.partial_entry "pdf_export")
    as [Heq _]; [reflexivity..|].
  rewrite Heq. reflexivity.
Defined.

(** ** Relevance of a response to a step *)

(** X15.  The first step type that matches the title decides alone.  A
    title with a keyword of the first type, [html], is judged by the
    [html] keywords whatever else it names: a step for PDF output whose
    title says "format" rejects a response that reports the exported PDF. *)
Theorem html_keywords_take_precedence (agent_response step_title keyword : string) :
  In keyword ["html"; "排版"; "format"; "layout"; "css"] →
  PyStr.contains keyword (PyStr.lower step_title) = true →
  StepRelevance._is_response_relevant_to_step agent_response step_title
  = PyStr.any_in ["html"; "排版"; "format"; "layout"; "css"] (PyStr.lower agent_response).
Proof.
  intros Hin Hc. unfold StepRelevance._is_response_relevant_to_step. simpl.
  change (PyStr.contains "html" (PyStr.lower step_title)
          || (PyStr.contains "排版" (PyStr.lower step_title)
              || (PyStr.contains "format" (PyStr.lower step_title)
                  || (PyStr.contains "layout" (PyStr.lower step_title)
                      || (PyStr.contains "css" (PyStr.lower step_title) || false)))))
    with (PyStr.any_in ["html"; "排版"; "format"; "layout"; "css"] (PyStr.lower step_title)).
  rewrite (any_in_true _ _ _ Hin Hc). reflexivity.
Qed.

Lemma html_keywords_take_precedence_witness :
  StepRelevance._is_response_relevant_to_step
    "✅ PDF exported: product_introduction.pdf" "Convert to PDF format" = false.
Proof.
  rewrite (html_keywords_take_precedence _ "Convert to PDF format" "format").
  - reflexivity.
  - simpl. auto.
  - reflexivity.
Defined.

(** ** Agent state bus *)

(** *** Splitting and number texts *)

Lemma split_nonempty (sep : ascii) (s : string) :
  ∃ piece pieces, PyText.split sep s = piece :: pieces.
Proof.
  destruct s as [|c s]; simpl; [eauto|].
  destruct (Ascii.eqb c sep); [eauto|].
  destruct (PyText.split sep s); eauto.
Qed.

Lemma split_app_sep (sep : ascii) (a t : string) :
  PyText.split sep (a ++ String sep t)
  = PyText.split sep a ++ PyText.split sep t.
Proof.
  induction a as [|c a IH].
  - simpl. by rewrite Ascii.eqb_refl.
  - rewrite append_cons. simpl. rewrite IH.
    destruct (Ascii.eqb c sep); [reflexivity|].
    destruct (split_nonempty sep a) as (piece & pieces & ->). reflexivity.
Qed.

Lemma split_without_sep (sep : ascii) (s : string) :
  PyText.has_char sep s = false → PyText.split sep s = [s].
Proof.
  induction s as [|c s IH]; [reflexivity|].
  simpl. intros H. apply orb_false_iff in H as [Hc Hs].
  rewrite Hc, (IH Hs). reflexivity.
Qed.

Lemma uint_text_chars (d : Decimal.uint) :
  PyText.has_char "_" (NilEmpty.string_of_uint d) = false.
Proof. induction d; [reflexivity|..]; simpl; exact IHd. Qed.

Lemma str_of_int_no_underscore (n : Z) :
  PyText.has_char "_" (PyText.str_of_int n) = false.
Proof.
  unfold PyText.str_of_int.
  destruct n as [|p|p]; [reflexivity|..]; simpl;
    pose proof (Unsigned.to_uint_nonnil p) as Hp;
    unfold NilZero.string_of_uint;
    destruct (Pos.to_uint p) eqn:E; try done; rewrite <- E;
    apply uint_text_chars.
Qed.

(** *** Keys and their step numbers *)

Lemma split_key (agent_name : string) (step_idx : Z) :
  PyText.split "_" (AgentStateBus.key_of agent_name step_idx)
  = PyText.split "_" agent_name ++ [PyText.str_of_int step_idx].
Proof.
  unfold AgentStateBus.key_of.
  change ("_" ++ PyText.str_of_int step_idx)%string
    with (String "_" (PyText.str_of_int step_idx)).
  rewrite split_app_sep, (split_without_sep _ (PyText.str_of_int step_idx)).
  - reflexivity.
  - apply str_of_int_no_underscore.
Qed.

(** The key of an agent with an underscore in its name reads back as the
    second piece of the name. *)
Lemma key_step_of_name_piece (agent_name piece : string) (step_idx : Z) :
  PyText.split "_" agent_name !! 1 = Some piece →
  AgentStateBus.key_step (AgentStateBus.key_of agent_name step_idx)
  = match PyText.int_of_text piece with
    | None => inl AgentStateBus.ValueError
    | Some n => inr n
    end.
Proof.
  intros Hpiece. unfold AgentStateBus.key_step.
  rewrite split_key, (lookup_app_l_Some _ _ _ _ Hpiece). reflexivity.
Qed.

Section BusProperties.

Context {Output : Type}.
Implicit Types (bus : list (string * Output)).

Lemma get_previous_outputs_fails bus (k : string) (v : Output) (e : AgentStateBus.PyError)
    (current_step : Z) :
  In (k, v) bus → AgentStateBus.key_step k = inl e →
  ∃ e', AgentStateBus.get_previous_outputs bus current_step = inl e'.
Proof.
  induction bus as [|[k' v'] rest IH]; [done|].
  intros [[= -> ->]|Hin] Hk; simpl.
  - rewrite Hk. eauto.
  - destruct (AgentStateBus.key_step k'); [eauto|].
    destruct (IH Hin Hk) as [e' ->]. eauto.
Qed.

Lemma in_dict_set bus (k : string) (v : Output) :
  In (k, v) (AgentStateBus.dict_set bus k v).
Proof.
  induction bus as [|[k' v'] rest IH]; simpl; [auto|].
  destruct (String.eqb k' k); simpl; auto.
Qed.


End BusProperties.


Example every_worker_name_raises_value_error :
  map (fun agent_name =>
         AgentStateBus.get_previous_outputs
           (AgentStateBus.register_output [] agent_name 0%Z "output") 1)
      ["web_surfer"; "image_generator"; "coder_agent"; "file_surfer"]
  = [inl AgentStateBus.ValueError; inl AgentStateBus.ValueError;
     inl AgentStateBus.ValueError; inl AgentStateBus.ValueError].
Proof. reflexivity. Qed.

(** ** Step identifiers *)

Lemma step_id_boundary (a b c d1 d2 : string) :
  ExecutionController.step_id_of
    {| agent_name := (a ++ "_" ++ b)%string; title := c; details := d1 |}
  = ExecutionController.step_id_of
      {| agent_name := a; title := (b ++ "_" ++ c)%string; details := d2 |}.
Proof.
  unfold ExecutionController.step_id_of. simpl.
  rewrite (string_app_assoc a ("_" ++ b) ("_" ++ c)).
  by rewrite (string_app_assoc "_" b ("_" ++ c)).
Qed.

(** X21.  Step ids do not keep steps apart.  The id joins agent name and
    title with an underscore and ignores the details, so the step of agent
    [a_b] titled [c] and the step of agent [a] titled [b_c] have one id:
    a validated call for the first raises the attempt count that the second
    will find, and its history entry is filed under the id of the second. *)
Theorem step_ids_collide
    (is_repeated : ExecutionController.Controller → string → string → bool)
    (document format other : StepInfo → string → ExecutionResult)
    (a b c d1 d2 agent_response : string) (now : nat)
    (self : ExecutionController.Controller) :
  let first := {| agent_name := (a ++ "_" ++ b)%string; title := c; details := d1 |} in
  let second := {| agent_name := a; title := (b ++ "_" ++ c)%string; details := d2 |} in
  let rq := {| ExecutionController.request_time := now;
               ExecutionController.request_step := first;
               ExecutionController.request_response := agent_response |} in
  let self' :=
    (ExecutionController.execute_step is_repeated document format other
       now first agent_response self).1.2 in
  is_repeated (ExecutionController.recorded self rq)
    (ExecutionController.step_id_of first) agent_response = false →
  ExecutionController.step_attempts self' !! ExecutionController.step_id_of second
  = Some (default 0 (ExecutionController.step_attempts self
                       !! ExecutionController.step_id_of second) + 1)
  ∧ ∃ entry,
      last (ExecutionController.execution_history self') = Some entry
      ∧ ExecutionController.entry_step_id entry = ExecutionController.step_id_of second.
Proof.
  cbv zeta. intros Hrep.
  pose proof (execute_step_unfold is_repeated document format other
                {| ExecutionController.request_time := now;
                   ExecutionController.request_step :=
                     {| agent_name := (a ++ "_" ++ b)%string; title := c; details := d1 |};
                   ExecutionController.request_response := agent_response |} self) as H.
  cbv zeta in H. simpl in H. rewrite H, Hrep. clear H. simpl.
  rewrite <- (step_id_boundary a b c d1 d2). split.
  - by rewrite lookup_insert_eq.
  - eexists. split; [apply last_snoc|]. reflexivity.
Qed.

Lemma step_ids_collide_witness :
  let self' :=
    (ExecutionController.execute_step (fun _ _ _ => false)
       Samples.unlisted_validator Samples.unlisted_validator Samples.unlisted_validator
       0 {| agent_name := "coder_agent"; title := "report"; details := "写markdown" |}
       "文档创建任务已完成" ExecutionController.init).1.2 in
  ExecutionController.step_attempts self'
    !! ExecutionController.step_id_of
         {| agent_name := "coder"; title := "agent_report"; details := "转换为pdf" |}
  = Some 1.
Proof.
  cbv zeta.
  destruct (step_ids_collide (fun _ _ _ => false)
              Samples.unlisted_validator Samples.unlisted_validator
              Samples.unlisted_validator "coder" "agent" "report" "写markdown" "转换为pdf"
              "文档创建任务已完成" 0 ExecutionController.init eq_refl) as [Hattempts _].
  exact Hattempts.
Defined.

